(** * ArchiMonstre tracker: the screen-scan engine of [scripts/scan.py]

    A shallow embedding of the detection and persistence core of the scanner:
    overlap de-duplication of detection boxes, the multi-scale matcher loop,
    profile resolution, the profile-keyed result store, the payload summary
    and the checkpointing scan loop.

    Conventions.
    - Python [int] is [Z].  A score or an overlap ratio is a rational [Q]:
      the source computes them in binary64, and for screen-sized integers the
      quotient of two areas compares with a threshold exactly as the rational
      quotient does.
    - A JSON document is a [json] tree whose objects are [gmap string json]
      and whose numbers are integers; [json.dump] followed by [json.load] is
      the identity on such trees.
    - A Python [str] is a [string] whose characters are read as the code
      points 0..255.
    - A raised exception is the [Raise] constructor of [result]. *)

From Stdlib Require Import ZArith QArith List Bool Ascii String Lia.
From Stdlib Require Import Sorting.Permutation Sorting.Sorted.
From stdpp Require Import base option list gmap strings fin_maps.

Set Warnings "-register-all".
Local Open Scope Z_scope.

(** ** Exceptions and results *)

Inductive exn : Type :=
| FailSafeException      (* pyautogui: pointer in a screen corner *)
| KeyboardInterrupt      (* external interruption signal *)
| BuiltinError.          (* TypeError, ValueError, AttributeError, OSError *)

Inductive result (A : Type) : Type :=
| Ok (a : A)
| Raise (e : exn).
Arguments Ok {A} a.
Arguments Raise {A} e.

Definition rbind {A B} (r : result A) (k : A -> result B) : result B :=
  match r with
  | Ok a => k a
  | Raise e => Raise e
  end.

Notation "'let?' x ':=' r 'in' k" := (rbind r (fun x => k))
  (at level 10, x name, r at level 200, k at level 200).

(** [KeyboardInterrupt] derives from [BaseException]; the others derive from
    [Exception], so that [except Exception] catches them. *)
Definition is_Exception (e : exn) : bool :=
  match e with
  | KeyboardInterrupt => false
  | _ => true
  end.

(** ** Detection boxes and de-duplication *)

Module Dedup.

Record Box : Type := mkBox { left : Z; top : Z; width : Z; height : Z }.

#[global] Instance Box_eq_dec : EqDecision Box.
Proof. solve_decision. Defined.

Definition Qltb (x y : Q) : bool := (Qnum x * QDen y <? Qnum y * QDen x)%Z.

Definition IOU_THRESHOLD : Q := 6 # 10.

(** [_rect_iou(a, b)]: intersection area over union area, [0.0] when the
    union is empty. *)
Definition _rect_iou (a b : Box) : Q :=
  let ax1 := left a in let ay1 := top a in
  let aw := width a in let ah := height a in
  let bx1 := left b in let by1 := top b in
  let bw := width b in let bh := height b in
  let ax2 := ax1 + aw in let ay2 := ay1 + ah in
  let bx2 := bx1 + bw in let by2 := by1 + bh in
  let inter_w := Z.max 0 (Z.min ax2 bx2 - Z.max ax1 bx1) in
  let inter_h := Z.max 0 (Z.min ay2 by2 - Z.max ay1 by1) in
  let inter := inter_w * inter_h in
  let union := aw * ah + bw * bh - inter in
  if union =? 0 then 0%Q else (inject_Z inter / inject_Z union)%Q.

(** The sort key [(b.left, b.top)] and Python's tuple order on it. *)
Definition key (b : Box) : Z * Z := (left b, top b).

Definition key_leb (k1 k2 : Z * Z) : bool :=
  (fst k1 <? fst k2) || ((fst k1 =? fst k2) && (snd k1 <=? snd k2)).

(** [sorted(boxes, key=...)] is a stable sort; stable insertion computes the
    same list. *)
Fixpoint insert_by_key (b : Box) (l : list Box) : list Box :=
  match l with
  | [] => [b]
  | c :: l' => if key_leb (key b) (key c) then b :: c :: l'
               else c :: insert_by_key b l'
  end.

Fixpoint sorted (boxes : list Box) : list Box :=
  match boxes with
  | [] => []
  | b :: l => insert_by_key b (sorted l)
  end.

(** One turn of the loop [for b in boxes: if all(...): kept.append(b)]. *)
Definition keep_step (iou_threshold : Q) (kept : list Box) (b : Box) : list Box :=
  if forallb (fun k => Qltb (_rect_iou b k) iou_threshold) kept
  then kept ++ [b] else kept.

Definition _dedup_overlaps (boxes : list Box) (iou_threshold : Q) : list Box :=
  match boxes with
  | [] => boxes
  | _ => fold_left (keep_step iou_threshold) (sorted boxes) []
  end.

(** The order the sort establishes. *)
Definition key_le (a b : Box) : Prop := key_leb (key a) (key b) = true.

(** The relation the loop maintains between a kept box and a later one. *)
Definition apart (t : Q) (earlier later : Box) : Prop :=
  (_rect_iou later earlier < t)%Q.

End Dedup.


(** ** The multi-scale matcher *)

Module Matcher.
Import Dedup.

Definition MIN_TEMPLATE_WH : Z := 12.
Definition SCALE_FACTORS : list Q := [75 # 100; 85 # 100; 1; 115 # 100; 13 # 10]%Q.
Definition MULTISCALE_THRESHOLD : Q := 88 # 100.

(** [leftRegion = (x, y, w, h)]; the screenshot of a region has its width
    and height. *)
Record Region : Type := mkRegion { rx : Z; ry : Z; rw : Z; rh : Z }.

(** [np.where(res >= thr)] over a score map of [rows] x [cols], in row-major
    order, as [(y, x)] pairs. *)
Definition where_ge (res : Z -> Z -> Q) (rows cols : Z) (thr : Q) : list (Z * Z) :=
  flat_map (fun y =>
    flat_map (fun x => if Qle_bool thr (res y x) then [(y, x)] else [])
             (seqZ 0 cols))
    (seqZ 0 rows).

Section Multiscale.
(** [int(w * s)] as binary64 computes it. *)
Variable int_mul : Z -> Q -> Z.
(** [cv2.matchTemplate(img, tpl_s, TM_CCOEFF_NORMED)] for the template
    resized at scale [s]: the score at row [y], column [x]. Its shape is
    [(H_img - h_s + 1, W_img - w_s + 1)]. *)
Variable matchTemplate : Q -> Z -> Z -> Q.
(** [tpl.shape[:2]] and [leftRegion]. *)
Variables (h w : Z) (leftRegion : Region).

Definition W_img : Z := rw leftRegion.
Definition H_img : Z := rh leftRegion.

(** The body of [for s in SCALE_FACTORS]. *)
Definition boxes_at_scale (s : Q) : list Box :=
  let w_s := Z.max 1 (int_mul w s) in
  let h_s := Z.max 1 (int_mul h s) in
  if (w_s <? MIN_TEMPLATE_WH) || (h_s <? MIN_TEMPLATE_WH) then []
  else if (w_s >? W_img) || (h_s >? H_img) then []
  else
    let res := matchTemplate s in
    map (fun yx => mkBox (rx leftRegion + snd yx) (ry leftRegion + fst yx) w_s h_s)
        (where_ge res (H_img - h_s + 1) (W_img - w_s + 1) MULTISCALE_THRESHOLD).

Definition multiscale_boxes : list Box := flat_map boxes_at_scale SCALE_FACTORS.

Definition _count_icons_on_screen_multiscale : Z :=
  Z.of_nat (length (_dedup_overlaps multiscale_boxes IOU_THRESHOLD)).
End Multiscale.

(** A box of at least the minimum size that lies inside the region. *)
Definition well_placed (leftRegion : Region) (b : Box) : Prop :=
  MIN_TEMPLATE_WH <= width b /\ MIN_TEMPLATE_WH <= height b /\
  rx leftRegion <= left b /\ left b + width b <= rx leftRegion + rw leftRegion /\
  ry leftRegion <= top b /\ top b + height b <= ry leftRegion + rh leftRegion.

(** The exact product, truncated: what [int(w * s)] is up to rounding. *)
Definition trunc_mul (w : Z) (s : Q) : Z := Z.quot (w * Qnum s) (QDen s).

End Matcher.

(** ** JSON documents *)

Module Json.

Inductive json : Type :=
| JNull
| JBool (b : bool)
| JNum (n : Z)
| JStr (s : string)
| JArr (l : list json)
| JObj (m : gmap string json).

(** Python truth value of a decoded JSON value. *)
Definition truthy (v : json) : bool :=
  match v with
  | JNull => false
  | JBool b => b
  | JNum n => negb (n =? 0)
  | JStr s => negb (String.eqb s "")
  | JArr l => match l with [] => false | _ => true end
  | JObj m => negb (Nat.eqb (size m) 0)
  end.

(** [a or b]. *)
Definition py_or (a b : json) : json := if truthy a then a else b.

(** [d.get(k)]. *)
Definition get (d : gmap string json) (k : string) : json := default JNull (d !! k).

Definition is_str (s : string) (v : json) : bool :=
  match v with JStr x => String.eqb x s | _ => false end.

Definition is_substring (s x : string) : bool :=
  match String.index 0 s x with Some _ => true | None => false end.

(** [s in data] for a key or element [s]. *)
Definition contains (s : string) (data : json) : result bool :=
  match data with
  | JObj m => Ok (bool_decide (is_Some (m !! s)))
  | JArr l => Ok (existsb (is_str s) l)
  | JStr x => Ok (is_substring s x)
  | JNull | JBool _ | JNum _ => Raise BuiltinError
  end.

(** A file on disk: absent, present but failing [open] or [json.load], or
    holding a document. *)
Inductive file : Type :=
| Missing
| Unreadable
| Content (v : json).

End Json.

(** ** Profile resolution *)

Module Profile.
Import Json.

Definition code (c : ascii) : Z := Z.of_N (N_of_ascii c).

Definition between (lo hi n : Z) : bool := (lo <=? n) && (n <=? hi).

(** [ch.isalnum()] on the code points below 256. *)
Definition isalnum (c : ascii) : bool :=
  let n := code c in
  between 48 57 n || between 65 90 n || between 97 122 n
  || (n =? 170) || between 178 179 n || (n =? 181) || between 185 186 n
  || between 188 190 n || between 192 214 n || between 216 246 n
  || between 248 255 n.

(** [ch.isspace()] on the code points below 256. *)
Definition isspace (c : ascii) : bool :=
  let n := code c in
  between 9 13 n || between 28 32 n || (n =? 133) || (n =? 160).

(** [ch.lower()] on the code points below 256. *)
Definition lower_char (c : ascii) : ascii :=
  let n := code c in
  if between 65 90 n || between 192 214 n || between 216 222 n
  then ascii_of_N (Z.to_N (n + 32)) else c.

Fixpoint lstrip (l : list ascii) : list ascii :=
  match l with
  | c :: l' => if isspace c then lstrip l' else l
  | [] => []
  end.

(** [s.strip()]. *)
Definition strip (l : list ascii) : list ascii := rev (lstrip (rev (lstrip l))).

(** [s.lower()]. *)
Definition lower (l : list ascii) : list ascii := map lower_char l.

Definition allowed (c : ascii) : bool :=
  isalnum c || Ascii.eqb c "_" || Ascii.eqb c "-".

(** The body of [_safe_profile] for a non-empty [str]. *)
Definition clean (name : string) : string :=
  let raw := lower (strip (list_ascii_of_string name)) in
  string_of_list_ascii (List.filter allowed raw).

(** [_safe_profile(name)] for any decoded value [name]: a value that is
    truthy but not a [str] has no [strip]. *)
Definition _safe_profile (name : json) : result (option string) :=
  if negb (truthy name) then Ok None
  else match name with
       | JStr s => let cleaned := clean s in
                   Ok (if String.eqb cleaned "" then None else Some cleaned)
       | _ => Raise BuiltinError
       end.

(** [str | None] as a decoded value. *)
Definition of_opt (o : option string) : json :=
  match o with Some s => JStr s | None => JNull end.

(** [try: ... except Exception: pass] around the lookup in a file: the
    sanitised candidate, if the block reached its [return]. *)
Definition candidate (keys : gmap string json -> json) (f : file) : option string :=
  match f with
  | Missing | Unreadable => None
  | Content v =>
      match py_or v (JObj ∅) with
      | JObj m => match _safe_profile (keys m) with
                  | Ok o => o
                  | Raise _ => None
                  end
      | _ => None
      end
  end.

Definition cfg_keys (cfg : gmap string json) : json :=
  py_or (py_or (get cfg "profile") (get cfg "activeProfile")) (get cfg "defaultProfile").

Definition results_keys (payload : gmap string json) : json := get payload "activeProfile".

Definition or_default (o : result (option string)) : string :=
  match o with Ok (Some s) => s | _ => "default"%string end.

(** [_resolve_profile(profile)] given the environment variable
    [ARCHI_PROFILE], [metamob.config.json] and [results.json]. *)
Definition _resolve_profile (profile env_ARCHI_PROFILE : option string)
    (cfg results : file) : string :=
  if truthy (of_opt profile) then or_default (_safe_profile (of_opt profile))
  else
    match _safe_profile (of_opt env_ARCHI_PROFILE) with
    | Ok (Some env_profile) => env_profile
    | _ =>
        match candidate cfg_keys cfg with
        | Some cfg_profile => cfg_profile
        | None =>
            match candidate results_keys results with
            | Some active => active
            | None => "default"%string
            end
        end
    end.

(** A profile id after sanitisation: non-empty, lower-case, and made of
    alphanumeric characters, underscores and hyphens only. *)
Definition sanitized (s : string) : Prop :=
  s <> ""%string /\
  Forall (fun c => allowed c = true /\ lower_char c = c) (list_ascii_of_string s).

(** What [_safe_profile] makes of a string: its cleaned form, or nothing
    when that is the empty string. *)
Definition sanitize (s : string) : option string :=
  let cleaned := clean s in
  if String.eqb cleaned "" then None else Some cleaned.

Definition first_usable (l : list (option string)) : option string :=
  List.fold_right (fun o acc => match o with Some s => Some s | None => acc end) None l.

(** What the resolver makes of the value it picked in a file: the sanitised
    id, or nothing when [_safe_profile] returns [None] or raises. *)
Definition picked (v : json) : option string :=
  match _safe_profile v with Ok o => o | Raise _ => None end.

(** The levels of the precedence as the specification words them, read off
    the inputs directly and not through the resolver's own helpers. *)

(** Lower-case, then strip to alphanumeric characters, underscores and
    hyphens. *)
Definition lower_and_keep (s : string) : string :=
  string_of_list_ascii (List.filter allowed (map lower_char (list_ascii_of_string s))).

(** An empty sanitised result is no profile. *)
Definition sanitize_by_words (s : string) : option string :=
  if String.eqb (lower_and_keep s) "" then None else Some (lower_and_keep s).

(** The profile a file declares: its document must be an object; the first
    of [keys] under which it holds a value that Python takes as true decides,
    and gives a profile when that value is a string that survives
    sanitisation. *)
Definition declared_in (keys : list string) (f : file) : option string :=
  match f with
  | Content (JObj m) =>
      match List.find truthy (omap (fun k => m !! k) keys) with
      | Some (JStr s) => sanitize_by_words s
      | _ => None
      end
  | Content _ | Missing | Unreadable => None
  end.

(** The keys under which the configuration file declares a profile, and the
    key under which the store records the active one. *)
Definition CONFIG_KEYS : list string := ["profile"; "activeProfile"; "defaultProfile"]%string.
Definition STORE_KEYS : list string := ["activeProfile"]%string.

(** The precedence as the specification words it: the explicit argument when
    one is supplied (the empty string counts as none), otherwise the first
    level that yields a profile among the environment, the configuration
    file and the store; the default when sanitisation leaves nothing. *)
Definition resolve_by_precedence (profile env_ARCHI_PROFILE : option string)
    (cfg results : file) : string :=
  match profile with
  | Some (String c x) => default "default"%string (sanitize_by_words (String c x))
  | _ =>
      default "default"%string
        (first_usable [env_ARCHI_PROFILE ≫= sanitize_by_words;
                       declared_in CONFIG_KEYS cfg;
                       declared_in STORE_KEYS results])
  end.

End Profile.

(** ** The result store *)

Module Store.
Import Json.

Definition empty_store : gmap string json :=
  {[ "profiles"%string := JObj ∅; "activeProfile"%string := JStr "default" ]}.

(** [isinstance(data.get('profiles'), dict)]; [data.get] exists on a [dict]
    only. *)
Definition profiles_is_dict (data : json) : result bool :=
  match data with
  | JObj m => Ok (match get m "profiles" with JObj _ => true | _ => false end)
  | _ => Raise BuiltinError
  end.

(** [_load_all_results(path)] on the file at [path]. *)
Definition _load_all_results (f : file) : result json :=
  let data := match f with
              | Content v => py_or v (JObj ∅)
              | Missing | Unreadable => JObj ∅
              end in
  let? has_profiles := contains "profiles" data in
  let? profiled := (if has_profiles then profiles_is_dict data else Ok false) in
  if profiled then Ok data
  else
    (* Old flat format: wrap into default and mirror *)
    let? has_counts := contains "counts" data in
    if has_counts then
      match data with
      | JObj m =>
          let wrapped : gmap string json :=
            {[ "profiles"%string := JObj {[ "default"%string := data ]};
               "activeProfile"%string := JStr "default" ]} in
          (* wrapped.update(data) *)
          Ok (JObj (m ∪ wrapped))
      | _ => Raise BuiltinError   (* update() from a list or a str *)
      end
    else Ok (JObj empty_store).

Definition reserved (k : string) : Prop :=
  k = "profiles"%string \/ k = "activeProfile"%string.

#[global] Instance reserved_dec k : Decision (reserved k).
Proof. unfold reserved. apply _. Defined.

(** [save_results_profile(path, profile, payload)]: the file afterwards. *)
Definition save_results_profile (f : file) (profile : string)
    (payload : gmap string json) : result file :=
  let? data := _load_all_results f in
  match data with
  | JObj data =>
      match py_or (get data "profiles") (JObj ∅) with
      | JObj profiles =>
          let profiles := <[ profile := JObj payload ]> profiles in
          let data := <[ "profiles"%string := JObj profiles ]> data in
          let data := <[ "activeProfile"%string := JStr profile ]> data in
          (* mirror to top-level for back-compat:
             for k in list(data.keys()): if k not in {...}: del data[k] *)
          let data := filter (fun kv => reserved (fst kv)) data in
          (* data.update(payload) *)
          let data := payload ∪ data in
          (* written to path + ".tmp", then os.replace(tmp, path) *)
          Ok (Content (JObj data))
      | _ => Raise BuiltinError   (* item assignment on a list, str or number *)
      end
  | _ => Raise BuiltinError
  end.

(** Reading one profile's entry back through [_load_all_results]. *)
Definition read_profile (f : file) (profile : string) : option json :=
  match _load_all_results f with
  | Ok (JObj data) =>
      match data !! "profiles"%string with
      | Some (JObj profiles) => profiles !! profile
      | _ => None
      end
  | _ => None
  end.

Definition active_profile (f : file) : option json :=
  match _load_all_results f with
  | Ok (JObj data) => data !! "activeProfile"%string
  | _ => None
  end.

(** A ProfileStore document: an object whose ['profiles'] is a map. *)
Definition profile_store (f : file) (data profiles : gmap string json) : Prop :=
  f = Content (JObj data) /\ data !! "profiles"%string = Some (JObj profiles).

(** The older flat shape: a bare scan result, with its ['counts'] and without
    the two keys of a ProfileStore. *)
Definition flat_shape (data : gmap string json) : Prop :=
  is_Some (data !! "counts"%string) /\
  data !! "profiles"%string = None /\ data !! "activeProfile"%string = None.

(** The document a successful write leaves. *)
Definition written (data profiles : gmap string json) (profile : string)
    (payload : gmap string json) : gmap string json :=
  payload ∪
  filter (fun kv => reserved (fst kv))
    (<[ "activeProfile"%string := JStr profile ]>
       (<[ "profiles"%string := JObj (<[ profile := JObj payload ]> profiles) ]> data)).

(** A payload that does not use the two keys of a ProfileStore. *)
Definition plain (payload : gmap string json) : Prop :=
  payload !! "profiles"%string = None /\ payload !! "activeProfile"%string = None.

(** A results file on which [save_results_profile] goes through. *)
Definition usable (f : file) : Prop :=
  exists data profiles,
    _load_all_results f = Ok (JObj data) /\
    py_or (get data "profiles") (JObj ∅) = JObj profiles.

End Store.

(** ** The scan result *)

Module Payload.
Import Json.

Definition USE_MULTISCALE : bool := true.
Definition GRAYSCALE : bool := true.

Record duplicate : Type := mkDup { name : string; count : Z; extra : Z }.

Record payload : Type := mkPayload {
  timestamp : string;
  scanned : Z;
  total : Z;
  counts : list (string * Z);
  needed : list string;
  duplicates : list duplicate;
  totalDuplicates : Z;
  totalFound : Z;
  totalFoundItems : Z;
  note : string;
  matchMode : string;
  grayscale : bool
}.

Definition sum (l : list Z) : Z := fold_left Z.add l 0.

(** [make_payload(names, counts, scanned)]; [counts] is the [dict] in
    insertion order, [utcnow] the clock reading and [cv2] whether OpenCV was
    imported. *)
Definition make_payload (utcnow : string) (cv2 : bool)
    (names : list string) (counts : list (string * Z)) (scanned : Z) : payload :=
  let needed := map fst (List.filter (fun nk => snd nk <=? 0) counts) in
  let duplicates :=
    map (fun nk => mkDup (fst nk) (snd nk) (Z.max 0 (snd nk - 1)))
        (List.filter (fun nk => snd nk >? 1) counts) in
  let total_found_unique :=
    sum (map (fun _ => 1) (List.filter (fun k => k >=? 1) (map snd counts))) in
  let total_found_items := sum (map snd counts) in
  {| timestamp := utcnow ++ "Z";
     scanned := scanned;
     total := Z.of_nat (length names);
     counts := counts;
     needed := needed;
     duplicates := duplicates;
     totalDuplicates := sum (map extra duplicates);
     totalFound := total_found_unique;
     totalFoundItems := total_found_items;
     note := "F8=start (capture search bar). F10=pause/resume. Move mouse to top-left to abort.";
     matchMode := if USE_MULTISCALE && cv2 then "cv2_multiscale" else "pyautogui_exact";
     grayscale := GRAYSCALE |}.

(** The [dict] that [make_payload] returns, as [json.dump] sees it. *)
Definition dup_json (d : duplicate) : json :=
  JObj {[ "name"%string := JStr (name d); "count"%string := JNum (count d);
          "extra"%string := JNum (extra d) ]}.

Definition counts_json (c : list (string * Z)) : json :=
  JObj (list_to_map (map (fun nk => (fst nk, JNum (snd nk))) c)).

Definition to_json (p : payload) : gmap string json :=
  {[ "timestamp"%string := JStr (timestamp p);
     "scanned"%string := JNum (scanned p);
     "total"%string := JNum (total p);
     "counts"%string := counts_json (counts p);
     "needed"%string := JArr (map JStr (needed p));
     "duplicates"%string := JArr (map dup_json (duplicates p));
     "totalDuplicates"%string := JNum (totalDuplicates p);
     "totalFound"%string := JNum (totalFound p);
     "totalFoundItems"%string := JNum (totalFoundItems p);
     "note"%string := JStr (note p);
     "matchMode"%string := JStr (matchMode p);
     "grayscale"%string := JBool (grayscale p) ]}.

End Payload.

(** ** The scan loop *)

Module Engine.
Import Json Profile Store Payload.

Definition SAVE_EVERY : Z := 12.

(** What one turn of the loop meets. *)
Inductive outcome : Type :=
| Counted (c : Z)          (* count_icons_on_screen returns c *)
| MatchRaised (e : exn)    (* count_icons_on_screen raises e *)
| Interrupted (e : exn).   (* click_and_type or a sleep raises e *)

(** The surroundings of a run: what each name meets on screen, the clock
    reading at the n-th write, and whether OpenCV was imported. *)
Record world : Type := mkWorld {
  look : string -> outcome;
  utcnow : nat -> string;
  cv2 : bool
}.

Inductive event : Type :=
| Saved (profile : string) (p : payload)   (* save_results_profile *)
| ListenerStopped.                         (* stop_hotkey_listener *)

Record state : Type := mkState {
  st_counts : list (string * Z);
  st_scanned : Z;
  st_store : file;                         (* results.json *)
  st_trace : list event
}.

(** Computations of [main]: they thread the state and may raise. *)
Definition M (A : Type) : Type := state -> state * result A.

Definition ret {A} (a : A) : M A := fun s => (s, Ok a).
Definition raise {A} (e : exn) : M A := fun s => (s, Raise e).
Definition bind {A B} (m : M A) (k : A -> M B) : M B :=
  fun s => match m s with
           | (s', Ok a) => k a s'
           | (s', Raise e) => (s', Raise e)
           end.

Notation "'let!' x ':=' m 'in' k" := (bind m (fun x => k))
  (at level 10, x name, m at level 200, k at level 200).
Notation "'run!' m 'in' k" := (bind m (fun _ => k))
  (at level 10, m at level 200, k at level 200).

(** [counts[name] = c] on a [dict] kept in insertion order. *)
Fixpoint dict_set (d : list (string * Z)) (k : string) (v : Z) : list (string * Z) :=
  match d with
  | [] => [(k, v)]
  | (k', v') :: d' => if String.eqb k' k then (k', v) :: d'
                      else (k', v') :: dict_set d' k v
  end.

Definition nb_saves (tr : list event) : nat :=
  length (List.filter (fun ev => match ev with Saved _ _ => true | _ => false end) tr).

(** [save_results_profile(out_path, profile, make_payload(names, counts, scanned))]. *)
Definition persist (W : world) (names : list string) (profile : string) : M unit :=
  fun s =>
    let p := make_payload (utcnow W (nb_saves (st_trace s))) (cv2 W)
                          names (st_counts s) (st_scanned s) in
    match save_results_profile (st_store s) profile (to_json p) with
    | Ok f => (mkState (st_counts s) (st_scanned s) f (st_trace s ++ [Saved profile p]), Ok tt)
    | Raise e => (s, Raise e)
    end.

(** The screen interaction of one turn: [click_and_type], the settle delay,
    then [count_icons_on_screen] inside [try ... except Exception]. *)
Definition scan_name (W : world) (name : string) : M Z :=
  match look W name with
  | Interrupted e => raise e
  | Counted c => ret c
  | MatchRaised e => if is_Exception e then ret 0 else raise e
  end.

Definition record (name : string) (c : Z) : M Z :=
  fun s =>
    let s' := mkState (dict_set (st_counts s) name c) (st_scanned s + 1)
                      (st_store s) (st_trace s) in
    (s', Ok (st_scanned s')).

(** [for name in names: ...]. *)
Fixpoint scan_loop (W : world) (names : list string) (profile : string)
    (todo : list string) : M unit :=
  match todo with
  | [] => ret tt
  | name :: todo' =>
      let! c := scan_name W name in
      let! scanned := record name c in
      run! (if scanned mod SAVE_EVERY =? 0 then persist W names profile else ret tt) in
      scan_loop W names profile todo'
  end.

(** [try: <loop>; <final save> finally: stop_hotkey_listener()]. *)
Definition finally_stop_listener {A} (m : M A) : M A :=
  fun s => match m s with
           | (s', r) => (mkState (st_counts s') (st_scanned s') (st_store s')
                                 (st_trace s' ++ [ListenerStopped]), r)
           end.

(** [main(profile)] from the resolution of the profile on: the required input
    files exist, [names] is the catalogue, the search bar was captured, and a
    pause is always followed by a resume. *)
Definition main (W : world) (profile env_ARCHI_PROFILE : option string)
    (cfg results : file) (names : list string) : state * result unit :=
  let profile := _resolve_profile profile env_ARCHI_PROFILE cfg results in
  finally_stop_listener
    (run! scan_loop W names profile names in persist W names profile)
    (mkState [] 0 results []).

(** [if __name__ == "__main__"]: the exit status of the process. *)
Definition script (W : world) (env_ARCHI_PROFILE : option string)
    (cfg results : file) (names : list string) : state * Z :=
  match main W None env_ARCHI_PROFILE cfg results names with
  | (s, Ok _) => (s, 0)
  | (s, Raise KeyboardInterrupt) => (s, 0)       (* "Interrupted by user." *)
  | (s, Raise _) => (s, 1)
  end.

(** The [scanned] field of each write, in order. *)
Definition save_marks (tr : list event) : list Z :=
  flat_map (fun ev => match ev with Saved _ p => [scanned p] | _ => [] end) tr.

(** The multiples of [SAVE_EVERY] among [a+1..a+n], and among [1..n]. *)
Definition checkpoints_from (a n : Z) : list Z :=
  List.filter (fun i => i mod SAVE_EVERY =? 0) (seqZ (a + 1) n).

Definition checkpoints (n : Z) : list Z := checkpoints_from 0 n.

(** A turn that leaves the loop with exception [e]: an interruption of the
    interaction, or an exception of the matcher that [except Exception] does
    not catch. *)
Definition breaks_off (W : world) (name : string) (e : exn) : Prop :=
  match look W name with
  | Interrupted e' => e' = e
  | Counted _ => False
  | MatchRaised e' => e' = e /\ is_Exception e' = false
  end.

(** A turn that does not leave the loop. *)
Definition carries_on (W : world) (name : string) : Prop :=
  match look W name with
  | Interrupted _ => False
  | Counted _ => True
  | MatchRaised e => is_Exception e = true
  end.

End Engine.

(** ** The catalogue of names *)

Module Catalogue.
Import Json.

(** [for x in v]: the items a loop over a decoded value visits; a [dict]
    gives its keys (each a [str], on which the loop bodies below raise alike,
    so that their order is immaterial), a [str] its characters. *)
Definition iter (v : json) : result (list json) :=
  match v with
  | JArr l => Ok l
  | JObj m => Ok (map (fun kv => JStr (fst kv)) (map_to_list m))
  | JStr s => Ok (map (fun c => JStr (String c "")) (list_ascii_of_string s))
  | JNull | JBool _ | JNum _ => Raise BuiltinError
  end.

(** [v.get(k, [])]: only a [dict] has [get]. *)
Definition get_or_empty (v : json) (k : string) : result json :=
  match v with
  | JObj m => Ok (default (JArr []) (m !! k))
  | _ => Raise BuiltinError
  end.

Fixpoint foldM {A S : Type} (f : S -> A -> result S) (st : S) (l : list A) : result S :=
  match l with
  | [] => Ok st
  | x :: l' => let? st' := f st x in foldM f st' l'
  end.

(** The pair of [seen] and [names]. *)
Definition acc : Type := gset string * list string.

(** What the loop keeps true of [seen] and [names]. *)
Definition tidy (st : acc) : Prop :=
  NoDup (snd st) /\ (forall s, s ∈ fst st <-> s ∈ snd st) /\
  Forall (fun s => s <> ""%string) (snd st).

(** The body of [for archi in ...]. *)
Definition visit_archi (st : acc) (archi : json) : result acc :=
  match archi with
  | JObj m =>
      let name := get m "nom" in
      if negb (truthy name) then Ok st
      else match name with
           | JStr s => if bool_decide (s ∈ fst st) then Ok st
                       else Ok ({[ s ]} ∪ fst st, snd st ++ [s])
           | _ => Ok st
           end
  | _ => Raise BuiltinError
  end.

(** The body of [for sz in ...]. *)
Definition visit_souszone (st : acc) (sz : json) : result acc :=
  let? archis := get_or_empty sz "archimonstres" in
  let? items := iter archis in
  foldM visit_archi st items.

(** The body of [for zone in zones]. *)
Definition visit_zone (st : acc) (zone : json) : result acc :=
  let? souszones := get_or_empty zone "souszones" in
  let? items := iter souszones in
  foldM visit_souszone st items.

(** [gather_names(data)]. *)
Definition gather_names (data : json) : result (list string) :=
  let? zones := get_or_empty data "zones" in
  let? items := iter zones in
  let? st := foldM visit_zone (∅, []) items in
  Ok (snd st).

(** A catalogue as the zones file holds it: zones of sub-zones of
    archimonsters, each with a name and a step. *)
Record archimonstre : Type := mkArchi { nom : string; etape : Z }.
Record souszone : Type := mkSousZone { souszone_name : string; archimonstres : list archimonstre }.
Record zone : Type := mkZone { zone_name : string; souszones : list souszone }.

Definition archi_json (a : archimonstre) : json :=
  JObj {[ "nom"%string := JStr (nom a); "etape"%string := JNum (etape a) ]}.

Definition souszone_json (sz : souszone) : json :=
  JObj {[ "souszone"%string := JStr (souszone_name sz);
          "archimonstres"%string := JArr (map archi_json (archimonstres sz)) ]}.

Definition zone_json (z : zone) : json :=
  JObj {[ "zone"%string := JStr (zone_name z);
          "souszones"%string := JArr (map souszone_json (souszones z)) ]}.

Definition catalogue_json (zones : list zone) : json :=
  JObj {[ "zones"%string := JArr (map zone_json zones) ]}.

(** The names of a catalogue in reading order. *)
Definition all_names (zones : list zone) : list string :=
  flat_map (fun z => flat_map (fun sz => map nom (archimonstres sz)) (souszones z)) zones.

(** What is left of a list when only the first occurrence of each element
    stays. *)
Fixpoint first_occurrences (l : list string) : list string :=
  match l with
  | [] => []
  | x :: l' => x :: List.filter (fun y => negb (String.eqb y x)) (first_occurrences l')
  end.

Definition nonempty (s : string) : bool := negb (String.eqb s "").

(** One name through the tests of the innermost loop. *)
Definition push (st : acc) (s : string) : acc :=
  if nonempty s
  then (if bool_decide (s ∈ fst st) then st else ({[ s ]} ∪ fst st, snd st ++ [s]))
  else st.

Definition souszone_names (sz : souszone) : list string := map nom (archimonstres sz).
Definition zone_names (z : zone) : list string := flat_map souszone_names (souszones z).

End Catalogue.

(** ** The hotkey listener *)

Module Hotkeys.

Inductive special : Type := F8 | F10 | OtherSpecial.

(** A key as the listener hands it over: a member of [keyboard.Key], or a
    [KeyCode] with its virtual key code. *)
Inductive key : Type :=
| Special (k : special)
| KeyCode (vk : option Z).

#[global] Instance special_eq_dec : EqDecision special.
Proof. solve_decision. Defined.

(** [getattr(key, "vk", None)]. *)
Definition vk_of (k : key) : option Z :=
  match k with
  | Special _ => None
  | KeyCode vk => vk
  end.

(** The globals the listener shares with the scan loop. *)
Record globals : Type := mkGlobals {
  search_bar_pos : option (Z * Z);
  start_event : bool;
  scan_paused : bool
}.

Definition initial : globals := mkGlobals None false false.

(** The local function [is_key(target, vk)] of [on_press]. *)
Definition is_key (k : key) (target : special) (vk : option Z) : bool :=
  match k with
  | Special s => if decide (s = target) then true else false
  | KeyCode _ =>
      match vk with
      | Some v => bool_decide (vk_of k = Some v)
      | None => false
      end
  end.

(** The second [if] of [on_press]: F10 pauses or resumes. *)
Definition toggle_on_f10 (k : key) (g : globals) : globals :=
  if is_key k F10 (Some 121)
  then mkGlobals (search_bar_pos g) (start_event g) (negb (scan_paused g))
  else g.

(** [on_press(key)]; [pointer] is what [pyautogui.position()] gives, [None]
    when it raises: the handler then ends in its [except Exception: pass]. *)
Definition on_press (k : key) (pointer : option (Z * Z)) (g : globals) : globals :=
  if is_key k F8 (Some 119) && negb (start_event g) then
    match pointer with
    | None => g
    | Some p => toggle_on_f10 k (mkGlobals (Some p) true (scan_paused g))
    end
  else toggle_on_f10 k g.

(** The listener thread over a sequence of key presses. *)
Definition listen (events : list (key * option (Z * Z))) (g : globals) : globals :=
  fold_left (fun g ev => on_press (fst ev) (snd ev) g) events g.

(** [wait_for_start_hotkey()] once [start_event.wait()] has returned. *)
Definition wait_for_start_hotkey (g : globals) : result (Z * Z) :=
  match search_bar_pos g with
  | Some p => Ok p
  | None => Raise BuiltinError     (* RuntimeError *)
  end.

Definition is_f8 (k : key) : bool := is_key k F8 (Some 119).
Definition is_f10 (k : key) : bool := is_key k F10 (Some 121).

End Hotkeys.

(** ** The template cache *)

Module Template.

Section Cache.
(** The decoded image; [cv2.imread] gives [None] for a file it cannot
    decode. *)
Variable image : Type.
Variable imread : string -> option image.

(** [_TPL_CACHE]. *)
Record cache : Type := mkCache { path : option string; img_gray : option image }.

(** [_ensure_tpl_loaded(template_path)]: the cache afterwards and the files
    read; [cv2] tells whether OpenCV was imported. *)
Definition _ensure_tpl_loaded (cv2 : bool) (template_path : string) (c : cache)
    : result (cache * list string) :=
  if bool_decide (path c = Some template_path) &&
     (match img_gray c with Some _ => true | None => false end)
  then Ok (c, [])
  else if negb cv2 then Ok (c, [])
  else match imread template_path with
       | None => Raise BuiltinError          (* FileNotFoundError *)
       | Some tpl => Ok (mkCache (Some template_path) (Some tpl), [template_path])
       end.
End Cache.

End Template.

(** ** Highlighting the first match *)

Module Highlight.
Import Dedup.

Inductive ui_action : Type := Click (x y : Z).

(** [highlight_first_match(box)]: the clicks it sends. *)
Definition highlight_first_match (pack_archi_enabled : bool) (box : option Box)
    : list ui_action :=
  match box with
  | None => []
  | Some b =>
      if negb pack_archi_enabled then []
      else
        let center_x := left b + width b / 2 in
        let center_y := top b + height b / 2 in
        [Click center_x center_y; Click center_x center_y]
  end.

(** The tail shared by the two counting functions: de-duplicate, highlight
    the first box if there is one, return the number of boxes. *)
Definition count_boxes (pack_archi_enabled : bool) (boxes : list Box)
    : Z * list ui_action :=
  let boxes := _dedup_overlaps boxes IOU_THRESHOLD in
  (Z.of_nat (length boxes),
   match boxes with
   | [] => []
   | b :: _ => highlight_first_match pack_archi_enabled (Some b)
   end).

Definition inside (x y : Z) (r : Matcher.Region) : Prop :=
  Matcher.rx r <= x < Matcher.rx r + Matcher.rw r /\
  Matcher.ry r <= y < Matcher.ry r + Matcher.rh r.

End Highlight.

(** ** The dashboard server's view of the results ([scripts/serve.py]) *)

Module Serve.
Import Json Profile.

(** [_safe_profile(name)] of the server: a fixed list of profiles. *)
Definition _safe_profile (name : json) : result (option string) :=
  if negb (truthy name) then Ok None
  else match name with
       | JStr s =>
           let v := string_of_list_ascii (lower (strip (list_ascii_of_string s))) in
           Ok (if String.eqb v "kourial" || String.eqb v "mikhal" then Some v else None)
       | _ => Raise BuiltinError
       end.

(** [_extract_profile_from_request()]; [query] is the [profile] argument of
    the request. *)
Definition _extract_profile_from_request (query : option string) : string :=
  match _safe_profile (of_opt query) with
  | Ok (Some p) => p
  | _ => "default"%string
  end.

(** The profile [local_scan_start] hands to [_spawn_tool], which exports it
    as [ARCHI_PROFILE]; [body] is the decoded request body. *)
Definition scan_start_profile (body : json) (query : option string) : result string :=
  match py_or body (JObj ∅) with
  | JObj b =>
      let? p := _safe_profile (get b "profile") in
      Ok (match p with
          | Some p => p
          | None => _extract_profile_from_request query
          end)
  | _ => Raise BuiltinError
  end.

(** [_load_all_results()] of the server. *)
Definition _load_all_results (f : file) : gmap string json :=
  let data := match f with
              | Content v => py_or v (JObj ∅)
              | Missing | Unreadable => JObj ∅
              end in
  match data with
  | JObj m =>
      match m !! "profiles"%string with
      | Some (JObj _) => m
      | _ =>
          if bool_decide (is_Some (m !! "counts"%string))
          then m ∪ {[ "profiles"%string := JObj {[ "default"%string := data ]};
                      "activeProfile"%string := JStr "default" ]}
          else Store.empty_store
      end
  | _ => Store.empty_store
  end.

(** [d.get(k)] for a key [k] that is any decoded value: lists and dicts are
    not hashable, and the keys of a decoded object are strings. *)
Definition get_any (d : gmap string json) (k : json) : result json :=
  match k with
  | JStr s => Ok (get d s)
  | JArr _ | JObj _ => Raise BuiltinError
  | _ => Ok JNull
  end.

(** [_read_profile_payload(all_data, profile)]; [now] is the clock reading
    for the minimal payload. *)
Definition _read_profile_payload (now : string) (all_data : gmap string json)
    (profile : json) : result (gmap string json) :=
  match py_or (get all_data "profiles") (JObj ∅) with
  | JObj profiles =>
      let? payload := get_any profiles profile in
      Ok (match payload with
          | JObj p => p
          | _ => {[ "counts"%string := JObj ∅;
                    "timestamp"%string := JStr (now ++ "Z") ]}
          end)
  | _ => Raise BuiltinError
  end.

(** [_load_results()]: the payload of the active profile. *)
Definition _load_results (now : string) (f : file) : result (gmap string json) :=
  let data := _load_all_results f in
  let prof := py_or (get data "activeProfile") (JStr "default") in
  _read_profile_payload now data prof.

(** [get_results()]: the payload served for a request. *)
Definition get_results (now : string) (f : file) (query : option string)
    : result (gmap string json) :=
  _read_profile_payload now (_load_all_results f)
                        (JStr (_extract_profile_from_request query)).

End Serve.

(** ** The dashboard's profile ids ([architracker/state.py]) *)

Module Dashboard.
Import Json Profile.

Definition DEFAULT_PROFILE : string := "kourial".

(** [_safe_profile(name)] of the dashboard, for [str | None]. *)
Definition _safe_profile (name : option string) : string :=
  match name with
  | None => DEFAULT_PROFILE
  | Some s =>
      if String.eqb s "" then DEFAULT_PROFILE
      else let cleaned := clean s in
           if String.eqb cleaned "" then DEFAULT_PROFILE else cleaned
  end.

End Dashboard.

(** ** The whole run *)

Module Entry.
Import Json Profile Store Payload Engine Catalogue.

(** [ensure_files_exist()]: the template image is looked for first. *)
Definition ensure_files_exist (image_exists json_exists : bool) : result unit :=
  if negb image_exists then Raise BuiltinError         (* FileNotFoundError *)
  else if negb json_exists then Raise BuiltinError
  else Ok tt.

Definition exists_file (f : file) : bool :=
  match f with Missing => false | _ => true end.

Definition untouched (results : file) : state := mkState [] 0 results [].

(** [main(profile)] from its first line: the checks of the input files, the
    decoding of the catalogue and [gather_names] come before the [try], so
    that an exception there ends the run with nothing done. *)
Definition run (W : world) (profile env_ARCHI_PROFILE : option string)
    (cfg results : file) (image_exists : bool) (catalogue : file)
    : state * result unit :=
  match ensure_files_exist image_exists (exists_file catalogue) with
  | Raise e => (untouched results, Raise e)
  | Ok _ =>
      match catalogue with
      | Content data =>
          match gather_names data with
          | Ok names => main W profile env_ARCHI_PROFILE cfg results names
          | Raise e => (untouched results, Raise e)
          end
      | Missing | Unreadable => (untouched results, Raise BuiltinError)
      end
  end.

(** The count the loop stores for a name. *)
Definition stored_count (W : world) (name : string) : Z :=
  match look W name with
  | Counted c => c
  | _ => 0
  end.

End Entry.

(** * Properties *)

(** ** De-duplication *)

Module DedupFacts.
Import Dedup.

Lemma Qltb_lt x y : Qltb x y = true <-> (x < y)%Q.
Proof. unfold Qltb, Qlt. apply Z.ltb_lt. Qed.

Lemma _rect_iou_sym a b : _rect_iou a b = _rect_iou b a.
Proof.
  unfold _rect_iou; cbv zeta.
  rewrite (Z.min_comm (left a + width a)), (Z.max_comm (left a)).
  rewrite (Z.min_comm (top a + height a)), (Z.max_comm (top a)).
  rewrite (Z.add_comm (width a * height a)).
  reflexivity.
Qed.

Lemma key_leb_total k1 k2 : key_leb k1 k2 = true \/ key_leb k2 k1 = true.
Proof. unfold key_leb. destruct k1, k2; simpl. lia. Qed.

Lemma key_leb_trans k1 k2 k3 :
  key_leb k1 k2 = true -> key_leb k2 k3 = true -> key_leb k1 k3 = true.
Proof. unfold key_leb. destruct k1, k2, k3; simpl. lia. Qed.

Lemma key_leb_antisym k1 k2 :
  key_leb k1 k2 = true -> key_leb k2 k1 = true -> k1 = k2.
Proof.
  unfold key_leb. destruct k1, k2; simpl. intros H1 H2.
  f_equal; lia.
Qed.

Lemma insert_by_key_perm b l : Permutation (insert_by_key b l) (b :: l).
Proof.
  induction l as [|c l IH]; simpl; [reflexivity|].
  destruct (key_leb (key b) (key c)); [reflexivity|].
  rewrite IH. apply perm_swap.
Qed.

Lemma sorted_perm l : Permutation (sorted l) l.
Proof.
  induction l as [|b l IH]; simpl; [reflexivity|].
  rewrite insert_by_key_perm. by constructor.
Qed.

Lemma insert_by_key_sorted b l :
  StronglySorted key_le l -> StronglySorted key_le (insert_by_key b l).
Proof.
  induction 1 as [|c l Hs IH Hc]; simpl.
  - repeat constructor.
  - destruct (key_leb (key b) (key c)) eqn:E.
    + constructor; [by constructor|].
      constructor; [exact E|].
      eapply Forall_impl; [exact Hc|]. intros d Hd.
      unfold key_le in *. eapply key_leb_trans; eauto.
    + constructor; [exact IH|].
      assert (Hcb : key_le c b).
      { destruct (key_leb_total (key b) (key c)); [congruence|done]. }
      eapply Permutation_Forall; [symmetry; apply insert_by_key_perm|].
      by constructor.
Qed.

Lemma sorted_sorted l : StronglySorted key_le (sorted l).
Proof.
  induction l; simpl; [constructor|]. by apply insert_by_key_sorted.
Qed.

(** Two sorted arrangements of the same boxes agree when no two boxes share
    a key. *)
Lemma sorted_unique l1 l2 :
  StronglySorted key_le l1 -> StronglySorted key_le l2 ->
  Permutation l1 l2 -> NoDup (map key l1) -> l1 = l2.
Proof.
  intros H1. revert l2.
  induction H1 as [|a l1 Hs1 IH Ha]; intros l2 H2 HP Hnd.
  - apply Permutation_nil in HP. by subst.
  - destruct H2 as [|b l2 Hs2 Hb].
    + symmetry in HP. by apply Permutation_nil in HP.
    + assert (Hab : a = b).
      { destruct (decide (a = b)) as [|Hne]; [done|].
        assert (Hb1 : In b l1).
        { assert (Hin : In b (a :: l1))
            by (eapply Permutation_in; [symmetry; exact HP | by left]).
          destruct Hin; [congruence | done]. }
        assert (Ha2 : In a l2).
        { assert (Hin : In a (b :: l2))
            by (eapply Permutation_in; [exact HP | by left]).
          destruct Hin; [congruence | done]. }
        rewrite Forall_forall in Ha, Hb.
        assert (Hk : key a = key b).
        { apply key_leb_antisym; [apply Ha | apply Hb]; by apply list_elem_of_In. }
        simpl in Hnd. apply NoDup_cons in Hnd as [Hnot _].
        exfalso. apply Hnot. rewrite Hk. apply list_elem_of_In, in_map, Hb1. }
      subst b. f_equal. apply IH; [done| |].
      * by apply Permutation_cons_inv in HP.
      * simpl in Hnd. by apply NoDup_cons in Hnd as [_ ?].
Qed.

Lemma ordpairs_snoc (R : Box -> Box -> Prop) l b :
  ForallOrdPairs R l -> Forall (fun a => R a b) l -> ForallOrdPairs R (l ++ [b]).
Proof.
  induction 1 as [|a l Ha Hl IH]; intros Hb; simpl.
  - repeat constructor.
  - apply Forall_cons in Hb as [Hab Hb]. constructor; [|by apply IH].
    apply Forall_app; split; [exact Ha|]. by repeat constructor.
Qed.

Lemma ordpairs_lookup (R : Box -> Box -> Prop) l :
  ForallOrdPairs R l ->
  forall i j a b, (i < j)%nat -> l !! i = Some a -> l !! j = Some b -> R a b.
Proof.
  induction 1 as [|c l Hc Hl IH]; intros i j a b Hij Hi Hj.
  - by rewrite lookup_nil in Hi.
  - destruct j as [|j]; [lia|]. simpl in Hj.
    destruct i as [|i]; simpl in Hi.
    + inversion Hi; subst. rewrite Forall_forall in Hc.
      apply Hc. by eapply list_elem_of_lookup_2.
    + eapply IH; [|exact Hi|exact Hj]. lia.
Qed.

(** The loop only appends, appends boxes in the order it meets them, and
    appends a box only when it is apart from all the kept ones. *)
Lemma fold_keep_spec t l :
  forall kept, ForallOrdPairs (apart t) kept ->
  exists r, fold_left (keep_step t) l kept = kept ++ r /\
            sublist r l /\ ForallOrdPairs (apart t) (kept ++ r).
Proof.
  induction l as [|b l IH]; intros kept Hk; simpl.
  - exists []. rewrite app_nil_r. repeat split; [constructor | done].
  - unfold keep_step at 2.
    destruct (forallb _ kept) eqn:E.
    + destruct (IH (kept ++ [b])) as (r & Hr & Hsub & Hop).
      { apply ordpairs_snoc; [done|]. rewrite forallb_forall in E.
        apply Forall_forall. intros k Hin. apply Qltb_lt, E, list_elem_of_In, Hin. }
      exists (b :: r). rewrite Hr, <- app_assoc. simpl.
      repeat split; [by constructor | by rewrite <- app_assoc in Hop].
    + destruct (IH kept Hk) as (r & Hr & Hsub & Hop).
      exists r. repeat split; [done | by constructor | done].
Qed.

Lemma dedup_fold boxes t :
  _dedup_overlaps boxes t = fold_left (keep_step t) (sorted boxes) [].
Proof. by destruct boxes. Qed.

(** C4 (amended): the kept list is a sublist of the input once sorted by
    [(left, top)], hence it draws its boxes from the input and is no longer
    than it; and any two boxes at distinct positions of the kept list have an
    overlap ratio strictly below the threshold. *)
Theorem dedup_sublist_sorted_pairwise (boxes : list Box) (t : Q) :
  sublist (_dedup_overlaps boxes t) (sorted boxes) /\
  _dedup_overlaps boxes t ⊆+ boxes /\
  (length (_dedup_overlaps boxes t) <= length boxes)%nat /\
  (forall i j a b, i <> j ->
     _dedup_overlaps boxes t !! i = Some a ->
     _dedup_overlaps boxes t !! j = Some b ->
     (_rect_iou a b < t)%Q).
Proof.
  rewrite dedup_fold.
  destruct (fold_keep_spec t (sorted boxes) []) as (r & Hr & Hsub & Hop);
    [constructor|].
  rewrite Hr in *. simpl in *.
  assert (Hms : r ⊆+ boxes).
  { etrans; [by apply sublist_submseteq|]. apply Permutation_submseteq, sorted_perm. }
  repeat split; [done | done | by apply submseteq_length |].
  intros i j a b Hij Hi Hj.
  destruct (Nat.lt_total i j) as [Hlt|[Heq|Hgt]]; [| done |].
  - rewrite _rect_iou_sym. by apply (ordpairs_lookup _ _ Hop i j).
  - by apply (ordpairs_lookup _ _ Hop j i).
Qed.

(** C4, as worded, fails: the kept list comes out in sorted order, which need
    not be the order of the input. *)
Lemma dedup_not_sublist_of_input :
  let boxes := [mkBox 5 0 10 10; mkBox 0 0 3 12] in
  _dedup_overlaps boxes IOU_THRESHOLD = [mkBox 0 0 3 12; mkBox 5 0 10 10] /\
  ~ sublist (_dedup_overlaps boxes IOU_THRESHOLD) boxes.
Proof.
  split; [reflexivity|].
  intros H. vm_compute in H.
  repeat match goal with
         | H : sublist _ _ |- _ => inversion H; clear H; subst
         end.
Qed.

(** C3 (amended): when no two boxes share a [(left, top)] key, every ordering
    of the input gives the same kept list. *)
Theorem dedup_permutation_distinct_keys (l1 l2 : list Box) (t : Q) :
  Permutation l1 l2 -> NoDup (map key l1) ->
  _dedup_overlaps l1 t = _dedup_overlaps l2 t.
Proof.
  intros HP Hnd. rewrite !dedup_fold. f_equal.
  apply sorted_unique; [apply sorted_sorted | apply sorted_sorted | | ].
  - by rewrite !sorted_perm.
  - by rewrite sorted_perm.
Qed.

Lemma dedup_permutation_distinct_keys_witness :
  _dedup_overlaps [mkBox 0 0 10 10; mkBox 4 0 10 10; mkBox 30 2 10 10] IOU_THRESHOLD =
  _dedup_overlaps [mkBox 30 2 10 10; mkBox 4 0 10 10; mkBox 0 0 10 10] IOU_THRESHOLD.
Proof.
  apply dedup_permutation_distinct_keys.
  - apply (Permutation_rev [mkBox 0 0 10 10; mkBox 4 0 10 10; mkBox 30 2 10 10]).
  - simpl. by apply (bool_decide_unpack _).
Defined.

(** C3, as worded, fails: two boxes found at the same place at two scales
    share a key, the stable sort leaves them in input order, and the first of
    them is the one kept. *)
Lemma dedup_depends_on_order :
  let a := mkBox 0 0 40 40 in
  let b := mkBox 0 0 46 46 in
  NoDup [a; b] /\ Permutation [a; b] [b; a] /\
  _dedup_overlaps [a; b] IOU_THRESHOLD = [a] /\
  _dedup_overlaps [b; a] IOU_THRESHOLD = [b].
Proof.
  repeat split; try reflexivity.
  - by apply (bool_decide_unpack _).
  - apply perm_swap.
Qed.

End DedupFacts.

(** ** The matcher *)

Module MatcherFacts.
Import Dedup Matcher.

Lemma where_ge_range res rows cols thr y x :
  In (y, x) (where_ge res rows cols thr) -> 0 <= y < rows /\ 0 <= x < cols.
Proof.
  unfold where_ge. intros Hin.
  apply in_flat_map in Hin as (y' & Hy & Hin).
  apply in_flat_map in Hin as (x' & Hx & Hin).
  destruct (Qle_bool thr (res y' x')); [|by destruct Hin].
  destruct Hin as [Heq|[]]. inversion Heq; subst.
  apply list_elem_of_In, elem_of_seqZ in Hy, Hx. lia.
Qed.

Section Bounds.
Variable int_mul : Z -> Q -> Z.
Variable matchTemplate : Q -> Z -> Z -> Q.
Variables (h w : Z) (leftRegion : Region).

Lemma boxes_at_scale_well_placed (s : Q) (b : Box) :
  In b (boxes_at_scale int_mul matchTemplate h w leftRegion s) ->
  well_placed leftRegion b.
Proof.
  unfold boxes_at_scale, W_img, H_img. cbv zeta.
  set (w_s := Z.max 1 (int_mul w s)). set (h_s := Z.max 1 (int_mul h s)).
  destruct (_ || _) eqn:Hsmall; [by intros []|].
  destruct ((w_s >? rw leftRegion) || _) eqn:Hlarge; [by intros []|].
  apply orb_false_iff in Hsmall as [Hw Hh], Hlarge as [Hw' Hh'].
  intros Hin. apply in_map_iff in Hin as ([y x] & <- & Hin).
  apply where_ge_range in Hin. unfold well_placed. simpl. lia.
Qed.

End Bounds.

(** C9: whatever the rounding of the scaled size and whatever the score map,
    a box the multi-scale matcher emits is at least [MIN_TEMPLATE_WH] wide and
    high and lies inside the capture region. *)
Theorem multiscale_boxes_well_placed
    (int_mul : Z -> Q -> Z) (matchTemplate : Q -> Z -> Z -> Q)
    (h w : Z) (leftRegion : Region) (b : Box) :
  In b (multiscale_boxes int_mul matchTemplate h w leftRegion) ->
  MIN_TEMPLATE_WH <= width b /\ MIN_TEMPLATE_WH <= height b /\
  rx leftRegion <= left b /\ left b + width b <= rx leftRegion + rw leftRegion /\
  ry leftRegion <= top b /\ top b + height b <= ry leftRegion + rh leftRegion.
Proof.
  unfold multiscale_boxes. intros Hin.
  apply in_flat_map in Hin as (s & _ & Hin).
  by apply boxes_at_scale_well_placed in Hin.
Qed.

Lemma multiscale_boxes_well_placed_witness :
  let region := mkRegion 3 5 20 18 in
  let b := mkBox 7 6 13 13 in
  In b (multiscale_boxes trunc_mul (fun _ _ _ => 1%Q) 16 16 region) /\
  12 <= width b /\ 12 <= height b /\
  3 <= left b /\ left b + width b <= 3 + 20 /\
  5 <= top b /\ top b + height b <= 5 + 18.
Proof.
  assert (Hin : In (mkBox 7 6 13 13)
                   (multiscale_boxes trunc_mul (fun _ _ _ => 1%Q) 16 16
                                     (mkRegion 3 5 20 18))).
  { apply list_elem_of_In. by apply (bool_decide_unpack _). }
  split; [exact Hin|].
  exact (multiscale_boxes_well_placed _ _ _ _ _ _ Hin).
Defined.

End MatcherFacts.

(** ** The scan result *)

Module PayloadFacts.
Import Payload.

Lemma sum_from (l : list Z) (a : Z) : fold_left Z.add l a = a + sum l.
Proof.
  unfold sum. revert a.
  induction l as [|x l IH]; intros a; simpl; [lia|].
  rewrite (IH (a + x)), (IH (0 + x)). lia.
Qed.

Lemma sum_cons (x : Z) (l : list Z) : sum (x :: l) = x + sum l.
Proof. unfold sum at 1. simpl. apply sum_from. Qed.

(** Every name adds [max(0, count - 1)] to the total of the extras: nothing
    unless its count exceeds one. *)
Lemma sum_extras (counts : list (string * Z)) :
  sum (map extra
         (map (fun nk => mkDup (fst nk) (snd nk) (Z.max 0 (snd nk - 1)))
              (List.filter (fun nk => snd nk >? 1) counts))) =
  sum (map (fun nk => Z.max 0 (snd nk - 1)) counts).
Proof.
  induction counts as [|[n k] counts IH]; [reflexivity|].
  simpl. destruct (k >? 1) eqn:E; simpl; rewrite !sum_cons, IH; lia.
Qed.

(** C5: the summary fields of [make_payload] are functions of [counts]
    alone: [needed] holds the names whose count is at most zero,
    [duplicates] the names whose count exceeds one, each with
    [extra = count - 1], [totalDuplicates] the sum of the extras and
    [totalFoundItems] the sum of the counts; and the worked example
    [{A: 0, B: 2, C: 5}] gives [needed = [A]], extras 1 and 4, 5 and 7. *)
Theorem make_payload_summary (utcnow : string) (cv2 : bool)
    (names : list string) (counts : list (string * Z)) (scanned : Z) :
  let p := make_payload utcnow cv2 names counts scanned in
  (forall n, In n (needed p) <-> exists k, In (n, k) counts /\ k <= 0) /\
  (forall d, In d (duplicates p) <->
             In (name d, count d) counts /\ count d > 1 /\ extra d = count d - 1) /\
  needed p = map fst (List.filter (fun nk => snd nk <=? 0) counts) /\
  map name (duplicates p) = map fst (List.filter (fun nk => snd nk >? 1) counts) /\
  totalDuplicates p = sum (map extra (duplicates p)) /\
  totalDuplicates p = sum (map (fun nk => Z.max 0 (snd nk - 1)) counts) /\
  totalFoundItems p = sum (map snd counts) /\
  (forall utcnow' cv2' names' scanned',
     let p' := make_payload utcnow' cv2' names' counts scanned' in
     needed p' = needed p /\ duplicates p' = duplicates p /\
     totalDuplicates p' = totalDuplicates p /\
     totalFoundItems p' = totalFoundItems p) /\
  (let q := make_payload utcnow cv2 names
              [("A", 0); ("B", 2); ("C", 5)]%string scanned in
   needed q = ["A"%string] /\
   duplicates q = [mkDup "B" 2 1; mkDup "C" 5 4] /\
   totalDuplicates q = 5 /\ totalFoundItems q = 7).
Proof.
  cbv zeta. simpl.
  split; [|split; [|split; [reflexivity|split; [|split; [reflexivity|split]]]]].
  - intros n. rewrite in_map_iff. split.
    + intros ([n' k] & <- & Hin). apply filter_In in Hin as [Hin Hk].
      exists k. simpl in *. split; [done | lia].
    + intros (k & Hin & Hk). exists (n, k). split; [done|].
      apply filter_In. split; [done | simpl; lia].
  - intros d. rewrite in_map_iff. split.
    + intros ([n k] & <- & Hin). apply filter_In in Hin as [Hin Hk].
      simpl in *. repeat split; [done | lia | lia].
    + intros (Hin & Hk & He). exists (name d, count d).
      split; [|apply filter_In; split; [done | simpl; lia]].
      destruct d as [n k e]. simpl in *. f_equal. lia.
  - rewrite map_map. simpl.
    induction counts as [|[n k] l IH]; [done|]. simpl.
    destruct (k >? 1); simpl; by rewrite IH.
  - apply sum_extras.
  - repeat split; reflexivity.
Qed.

End PayloadFacts.

(** ** Profile resolution *)

Module ProfileFacts.
Import Json Profile.

Lemma lower_char_idemp (c : ascii) : lower_char (lower_char c) = lower_char c.
Proof. destruct c as [[] [] [] [] [] [] [] []]; reflexivity. Qed.

Lemma _safe_profile_str (s : string) : _safe_profile (JStr s) = Ok (sanitize s).
Proof.
  unfold _safe_profile, sanitize. simpl.
  destruct s; reflexivity.
Qed.

Lemma _safe_profile_of_opt (o : option string) :
  _safe_profile (of_opt o) = Ok (o ≫= sanitize).
Proof. destruct o; [apply _safe_profile_str | reflexivity]. Qed.

Lemma clean_chars (s : string) :
  Forall (fun c => allowed c = true /\ lower_char c = c)
         (list_ascii_of_string (clean s)).
Proof.
  unfold clean. rewrite list_ascii_of_string_of_list_ascii.
  apply Forall_forall. intros c Hc.
  apply list_elem_of_In, filter_In in Hc as [Hc Ha]. split; [done|].
  unfold lower in Hc. apply in_map_iff in Hc as (c' & <- & _).
  apply lower_char_idemp.
Qed.

Lemma sanitize_sanitized (s r : string) : sanitize s = Some r -> sanitized r.
Proof.
  unfold sanitize. cbv zeta. destruct (String.eqb_spec (clean s) ""); [done|].
  intros [= <-]. split; [done | apply clean_chars].
Qed.

Lemma _safe_profile_sanitized (v : json) (r : string) :
  _safe_profile v = Ok (Some r) -> sanitized r.
Proof.
  unfold _safe_profile. destruct (negb (truthy v)); [done|].
  destruct v; try done. intros [= H]. by apply (sanitize_sanitized s).
Qed.

Lemma candidate_sanitized keys f r : candidate keys f = Some r -> sanitized r.
Proof.
  unfold candidate. destruct f as [| |v]; try done.
  destruct (py_or v (JObj ∅)); try done.
  destruct (_safe_profile _) as [o|] eqn:E; [|done].
  intros ->. by apply _safe_profile_sanitized in E.
Qed.

Lemma default_sanitized : sanitized "default".
Proof. split; [done|]. simpl. repeat constructor. Qed.

Lemma space_not_kept (c : ascii) : isspace c = true -> allowed (lower_char c) = false.
Proof. destruct c as [[] [] [] [] [] [] [] []]; vm_compute; congruence. Qed.

Lemma keep_lstrip (l : list ascii) :
  List.filter allowed (lower (lstrip l)) = List.filter allowed (lower l).
Proof.
  induction l as [|c l IH]; [done|]. cbn [lstrip].
  destruct (isspace c) eqn:E; [|done].
  rewrite IH. unfold lower. cbn [map List.filter]. by rewrite (space_not_kept c E).
Qed.

Lemma keep_rev (l : list ascii) :
  List.filter allowed (lower (rev l)) = rev (List.filter allowed (lower l)).
Proof. unfold lower. by rewrite map_rev, filter_rev. Qed.

(** Stripping the ends before lower-casing and filtering changes nothing:
    what it removes the filter removes too. *)
Lemma clean_lower_and_keep (s : string) : clean s = lower_and_keep s.
Proof.
  unfold clean, lower_and_keep, strip. cbv zeta. f_equal.
  rewrite keep_rev, keep_lstrip, keep_rev, rev_involutive, keep_lstrip. done.
Qed.

Lemma sanitize_by_words_eq (s : string) : sanitize s = sanitize_by_words s.
Proof. unfold sanitize, sanitize_by_words. cbv zeta. by rewrite clean_lower_and_keep. Qed.

Lemma py_or_empty_object (m : gmap string json) : py_or (JObj m) (JObj ∅) = JObj m.
Proof.
  unfold py_or. simpl. destruct (Nat.eqb_spec (size m) 0) as [Hz|]; [|done].
  apply map_size_empty_iff in Hz. by subst.
Qed.

Lemma picked_truthy (v : json) :
  truthy v = true ->
  picked v = match v with JStr s => sanitize_by_words s | _ => None end.
Proof.
  intros Ht. unfold picked, _safe_profile. rewrite Ht. cbn [negb].
  destruct v; try done. cbv zeta. rewrite <- sanitize_by_words_eq. done.
Qed.

Lemma picked_falsy (v : json) : truthy v = false -> picked v = None.
Proof. intros Ht. unfold picked, _safe_profile. by rewrite Ht. Qed.

Lemma candidate_object keys (m : gmap string json) :
  candidate keys (Content (JObj m)) = picked (keys m).
Proof. unfold candidate. by rewrite py_or_empty_object. Qed.

Lemma candidate_not_object keys (v : json) :
  (forall m, v <> JObj m) -> picked (keys ∅) = None ->
  candidate keys (Content v) = None.
Proof.
  intros Hv Hk. unfold candidate, py_or.
  destruct (truthy v) eqn:Ht.
  - destruct v as [| | | | |m]; try done. by destruct (Hv m).
  - exact Hk.
Qed.

Lemma find_declared (m : gmap string json) (k : string) (ks : list string) :
  List.find truthy (omap (fun k => m !! k) (k :: ks)) =
  if truthy (get m k) then Some (get m k)
  else List.find truthy (omap (fun k => m !! k) ks).
Proof.
  unfold get.
  change (omap (fun k => m !! k) (k :: ks))
    with (match m !! k with
          | Some y => y :: omap (fun k => m !! k) ks
          | None => omap (fun k => m !! k) ks
          end).
  destruct (m !! k) as [y|]; reflexivity.
Qed.

(** The configuration level of the resolver reads the profile the
    configuration file declares. *)
Lemma candidate_cfg_declared (cfg : file) :
  candidate cfg_keys cfg = declared_in CONFIG_KEYS cfg.
Proof.
  destruct cfg as [| |v]; [done|done|].
  destruct v as [| | | | |m];
    try (rewrite candidate_not_object by (discriminate || reflexivity); done).
  rewrite candidate_object. unfold cfg_keys, declared_in, CONFIG_KEYS.
  rewrite !find_declared.
  generalize (get m "profile") (get m "activeProfile") (get m "defaultProfile").
  intros x y z. unfold py_or.
  destruct (truthy x) eqn:Hx; [rewrite Hx; by apply picked_truthy|].
  cbv iota.
  destruct (truthy y) eqn:Hy; [by apply picked_truthy|].
  destruct (truthy z) eqn:Hz; [by apply picked_truthy | by apply picked_falsy].
Qed.

(** The store level of the resolver reads the active profile the results
    file records. *)
Lemma candidate_results_declared (results : file) :
  candidate results_keys results = declared_in STORE_KEYS results.
Proof.
  destruct results as [| |v]; [done|done|].
  destruct v as [| | | | |m];
    try (rewrite candidate_not_object by (discriminate || reflexivity); done).
  rewrite candidate_object. unfold results_keys, declared_in, STORE_KEYS.
  rewrite find_declared.
  generalize (get m "activeProfile"). intros x.
  destruct (truthy x) eqn:Hx; [by apply picked_truthy | by apply picked_falsy].
Qed.

(** C7: the resolver follows the precedence explicit argument, environment,
    configuration file, recorded active profile, default, each level read as
    the specification words it: the explicit argument decides whenever it is
    supplied; otherwise the environment value, then the profile the
    configuration file declares, then the active profile the store records,
    the first that survives sanitisation; otherwise the default. Sanitisation
    lower-cases and keeps alphanumerics, underscore and hyphen, so the result
    is always a non-empty id of that form; and with the explicit argument
    ["X"] and the environment value ["Y"] the result is ["x"]. *)
Theorem resolve_profile_precedence
    (profile env_ARCHI_PROFILE : option string) (cfg results : file) :
  _resolve_profile profile env_ARCHI_PROFILE cfg results =
    resolve_by_precedence profile env_ARCHI_PROFILE cfg results /\
  sanitized (_resolve_profile profile env_ARCHI_PROFILE cfg results) /\
  _resolve_profile (Some "X"%string) (Some "Y"%string) cfg results = "x"%string /\
  _resolve_profile None (Some " En-V "%string)
    (Content (JObj {[ "profile"%string := JStr "Bob" ]})) results = "en-v"%string /\
  _resolve_profile None (Some "!!"%string)
    (Content (JObj {[ "activeProfile"%string := JStr "Bob!" ]})) results = "bob"%string /\
  _resolve_profile None None (Content (JObj {[ "theme"%string := JStr "dark" ]}))
    (Content (JObj {[ "activeProfile"%string := JStr " Al_1 " ]})) = "al_1"%string /\
  _resolve_profile None None Unreadable Missing = "default"%string.
Proof.
  assert (Heq : _resolve_profile profile env_ARCHI_PROFILE cfg results =
                resolve_by_precedence profile env_ARCHI_PROFILE cfg results).
  { unfold _resolve_profile, resolve_by_precedence.
    rewrite <- candidate_cfg_declared, <- candidate_results_declared.
    assert (Henv : env_ARCHI_PROFILE ≫= sanitize_by_words =
                   env_ARCHI_PROFILE ≫= sanitize)
      by (destruct env_ARCHI_PROFILE; simpl; [by rewrite sanitize_by_words_eq | done]).
    rewrite Henv.
    destruct profile as [[|c x]|]; simpl of_opt; cbn [truthy String.eqb negb].
    - rewrite _safe_profile_of_opt. simpl.
      destruct (env_ARCHI_PROFILE ≫= sanitize); [done|].
      destruct (candidate cfg_keys cfg); [done|].
      by destruct (candidate results_keys results).
    - by rewrite _safe_profile_str, sanitize_by_words_eq.
    - rewrite _safe_profile_of_opt. simpl.
      destruct (env_ARCHI_PROFILE ≫= sanitize); [done|].
      destruct (candidate cfg_keys cfg); [done|].
      by destruct (candidate results_keys results). }
  split; [exact Heq|].
  split; [|repeat split; reflexivity].
  unfold _resolve_profile.
  assert (Hd : forall o, (forall r, o = Some r -> sanitized r) ->
                         sanitized (default "default"%string o)).
  { intros [r|] Hr; [by apply Hr | apply default_sanitized]. }
  destruct profile as [[|c x]|]; simpl of_opt; cbn [truthy String.eqb negb].
  2: { rewrite _safe_profile_str. simpl.
       destruct (sanitize (String c x)) eqn:E;
         [by apply sanitize_sanitized in E | apply default_sanitized]. }
  all: rewrite _safe_profile_of_opt; simpl;
    (destruct (env_ARCHI_PROFILE ≫= sanitize) eqn:E;
     [destruct env_ARCHI_PROFILE as [e|]; simpl in E; [|done];
      by apply sanitize_sanitized in E|]);
    (destruct (candidate cfg_keys cfg) eqn:E1;
     [by apply candidate_sanitized in E1|]);
    (destruct (candidate results_keys results) eqn:E2;
     [by apply candidate_sanitized in E2 | apply default_sanitized]).
Qed.

End ProfileFacts.

(** ** The result store *)

Module StoreFacts.
Import Json Store.

Lemma py_or_obj (m : gmap string json) : py_or (JObj m) (JObj ∅) = JObj m.
Proof.
  unfold py_or. simpl. destruct (Nat.eqb_spec (size m) 0) as [Hz|]; [|done].
  apply map_size_empty_iff in Hz. by subst.
Qed.

Lemma load_profile_store f data profiles :
  profile_store f data profiles -> _load_all_results f = Ok (JObj data).
Proof.
  intros [-> Hp]. unfold _load_all_results.
  rewrite py_or_obj. simpl. rewrite bool_decide_eq_true_2 by eauto.
  unfold get. by rewrite Hp.
Qed.

Lemma read_profile_store f data profiles q :
  profile_store f data profiles -> read_profile f q = profiles !! q.
Proof.
  intros Hs. unfold read_profile. rewrite (load_profile_store _ _ _ Hs).
  destruct Hs as [_ ->]. done.
Qed.

Lemma profile_store_usable f data profiles : profile_store f data profiles -> usable f.
Proof.
  intros Hs. exists data, profiles. split; [by eapply load_profile_store|].
  destruct Hs as [_ Hp]. unfold get. rewrite Hp. apply py_or_obj.
Qed.

Lemma save_usable f data profiles profile payload :
  _load_all_results f = Ok (JObj data) ->
  py_or (get data "profiles") (JObj ∅) = JObj profiles ->
  save_results_profile f profile payload =
    Ok (Content (JObj (written data profiles profile payload))).
Proof.
  intros Hl Hp. unfold save_results_profile. rewrite Hl. simpl. by rewrite Hp.
Qed.

Lemma written_plain_lookup data profiles profile payload k :
  ~ reserved k -> written data profiles profile payload !! k = payload !! k.
Proof.
  intros Hk. unfold written.
  rewrite lookup_union_l; [done|].
  apply map_lookup_filter_None. right. intros v _. done.
Qed.

Lemma written_profiles data profiles profile payload :
  payload !! "profiles"%string = None ->
  written data profiles profile payload !! "profiles"%string =
    Some (JObj (<[ profile := JObj payload ]> profiles)).
Proof.
  intros Hk. unfold written. rewrite lookup_union_r by done.
  apply map_lookup_filter_Some. split; [|by left].
  by rewrite lookup_insert_ne, lookup_insert_eq.
Qed.

Lemma written_active data profiles profile payload :
  payload !! "activeProfile"%string = None ->
  written data profiles profile payload !! "activeProfile"%string =
    Some (JStr profile).
Proof.
  intros Hk. unfold written. rewrite lookup_union_r by done.
  apply map_lookup_filter_Some. split; [|by right].
  by rewrite lookup_insert_eq.
Qed.

(** On a ProfileStore document, writing a payload that has neither a
    ['profiles'] nor an ['activeProfile'] key replaces the entry of the named
    profile only, records it as active and leaves every other entry as it
    was; a later write to another profile leaves this one readable
    unchanged. *)
Lemma save_plain_payload
    (f : file) (data profiles : gmap string json)
    (a : string) (va : gmap string json) :
  profile_store f data profiles -> plain va ->
  exists data',
    save_results_profile f a va = Ok (Content (JObj data')) /\
    data' !! "profiles"%string = Some (JObj (<[ a := JObj va ]> profiles)) /\
    data' !! "activeProfile"%string = Some (JStr a) /\
    read_profile (Content (JObj data')) a = Some (JObj va) /\
    active_profile (Content (JObj data')) = Some (JStr a) /\
    (forall q, q <> a ->
       read_profile (Content (JObj data')) q = read_profile f q) /\
    (forall b vb, b <> a -> plain vb ->
       exists f'', save_results_profile (Content (JObj data')) b vb = Ok f'' /\
                   read_profile f'' a = Some (JObj va)).
Proof.
  intros Hs [Hva1 Hva2].
  pose proof (profile_store_usable _ _ _ Hs) as (d0 & p0 & Hl & Hp).
  assert (d0 = data) by (rewrite (load_profile_store _ _ _ Hs) in Hl; congruence).
  subst d0.
  assert (p0 = profiles).
  { destruct Hs as [_ Hps]. unfold get in Hp. rewrite Hps in Hp. simpl in Hp.
    rewrite py_or_obj in Hp. congruence. }
  subst p0.
  set (data' := written data profiles a va).
  assert (Hs' : profile_store (Content (JObj data')) data' (<[ a := JObj va ]> profiles)).
  { split; [done | by apply written_profiles]. }
  exists data'. split; [by apply save_usable|].
  split; [by apply written_profiles|].
  split; [by apply written_active|].
  split; [by rewrite (read_profile_store _ _ _ _ Hs'), lookup_insert_eq|].
  split.
  { unfold active_profile. rewrite (load_profile_store _ _ _ Hs').
    by apply written_active. }
  split.
  { intros q Hq.
    rewrite (read_profile_store _ _ _ _ Hs'), (read_profile_store _ _ _ _ Hs).
    by rewrite lookup_insert_ne. }
  intros b vb Hb [Hvb1 Hvb2].
  pose proof (profile_store_usable _ _ _ Hs') as (d1 & p1 & Hl1 & Hp1).
  eexists. split; [by apply (save_usable _ d1 p1)|].
  assert (d1 = data') by (rewrite (load_profile_store _ _ _ Hs') in Hl1; congruence).
  subst d1.
  assert (p1 = <[ a := JObj va ]> profiles).
  { destruct Hs' as [_ Hps]. unfold get in Hp1. rewrite Hps in Hp1. simpl in Hp1.
    rewrite py_or_obj in Hp1. congruence. }
  subst p1.
  erewrite read_profile_store; [|split; [done | by apply written_profiles]].
  by rewrite lookup_insert_ne, lookup_insert_eq.
Qed.

(** A scan result, as [make_payload] builds it and [json.dump] writes it,
    has twelve keys, none of them ['profiles'] or ['activeProfile']. *)
Lemma scan_result_plain (r : Payload.payload) : plain (Payload.to_json r).
Proof. split; reflexivity. Qed.

(** C2: on every ProfileStore document, for every profile id [a] and every
    scan result [ra], [save_results_profile(path, a, ra)] replaces the entry
    of [a] in ['profiles'] and no other, sets ['activeProfile'] to [a], and
    leaves the entry of every other profile as it was; and after writing [a],
    then another profile [b] with any scan result, reading [a] back through
    the loader returns the payload written for [a]. *)
Theorem save_replaces_only_named_profile
    (f : file) (data profiles : gmap string json)
    (a : string) (ra : Payload.payload) :
  profile_store f data profiles ->
  exists data',
    save_results_profile f a (Payload.to_json ra) = Ok (Content (JObj data')) /\
    data' !! "profiles"%string =
      Some (JObj (<[ a := JObj (Payload.to_json ra) ]> profiles)) /\
    data' !! "activeProfile"%string = Some (JStr a) /\
    read_profile (Content (JObj data')) a = Some (JObj (Payload.to_json ra)) /\
    active_profile (Content (JObj data')) = Some (JStr a) /\
    (forall q, q <> a ->
       read_profile (Content (JObj data')) q = read_profile f q) /\
    (forall b (rb : Payload.payload), b <> a ->
       exists f'',
         save_results_profile (Content (JObj data')) b (Payload.to_json rb) = Ok f'' /\
         read_profile f'' a = Some (JObj (Payload.to_json ra))).
Proof.
  intros Hs.
  destruct (save_plain_payload f data profiles a (Payload.to_json ra) Hs
              (scan_result_plain ra))
    as (data' & Hsave & Hprofiles & Hactive & Hread & Hact & Hothers & Hlater).
  exists data'. repeat (split; [assumption|]).
  intros b rb Hb. apply Hlater; [exact Hb | apply scan_result_plain].
Qed.

Lemma save_replaces_only_named_profile_witness :
  let f := Content (JObj {[ "profiles"%string := JObj {[ "b"%string := JObj {[ "scanned"%string := JNum 7 ]} ]};
                            "activeProfile"%string := JStr "b" ]}) in
  let ra := Payload.make_payload "2024-05-01T10:00:00" true
              ["A"; "B"]%string [("A"%string, 0); ("B"%string, 2)] 2 in
  let rb := Payload.make_payload "2024-05-01T11:00:00" false
              ["A"]%string [("A"%string, 1)] 1 in
  exists data',
    save_results_profile f "a" (Payload.to_json ra) = Ok (Content (JObj data')) /\
    active_profile (Content (JObj data')) = Some (JStr "a") /\
    read_profile (Content (JObj data')) "b" = Some (JObj {[ "scanned"%string := JNum 7 ]}) /\
    exists f'',
      save_results_profile (Content (JObj data')) "b" (Payload.to_json rb) = Ok f'' /\
      read_profile f'' "a" = Some (JObj (Payload.to_json ra)).
Proof.
  intros f ra rb.
  destruct (save_replaces_only_named_profile f
              {[ "profiles"%string := JObj {[ "b"%string := JObj {[ "scanned"%string := JNum 7 ]} ]};
                 "activeProfile"%string := JStr "b" ]}
              {[ "b"%string := JObj {[ "scanned"%string := JNum 7 ]} ]}
              "a" ra)
    as (data' & Hsave & _ & _ & _ & Hact & Hothers & Hlater).
  - split; reflexivity.
  - exists data'. split; [exact Hsave|]. split; [exact Hact|]. split.
    + rewrite (Hothers "b"%string); [reflexivity | discriminate].
    + apply (Hlater "b"%string rb). discriminate.
Defined.

(** The frame depends on the payload being a scan result: a document with
    a ['profiles'] key of its own, written as a payload, would replace the
    map of profiles through the top-level mirror. [make_payload] builds no
    such payload. *)
Remark save_payload_with_reserved_key :
  let f := Content (JObj {[ "profiles"%string := JObj {[ "a"%string := JObj {[ "scanned"%string := JNum 7 ]} ]};
                            "activeProfile"%string := JStr "a" ]}) in
  read_profile f "a" = Some (JObj {[ "scanned"%string := JNum 7 ]}) /\
  exists f', save_results_profile f "b" {[ "profiles"%string := JObj ∅ ]} = Ok f' /\
             read_profile f' "a" = None.
Proof.
  split; [reflexivity|]. eexists. split; reflexivity.
Qed.

(** C10: a write leaves, next to ['profiles'] and ['activeProfile'], the
    keys of the payload just written with their values and nothing else:
    whatever was mirrored at the top level before is gone. *)
Theorem save_mirrors_payload
    (f : file) (profile : string) (payload : gmap string json) :
  usable f ->
  exists data',
    save_results_profile f profile payload = Ok (Content (JObj data')) /\
    (forall k, k <> "profiles"%string -> k <> "activeProfile"%string ->
               data' !! k = payload !! k) /\
    (forall k v, payload !! k = Some v -> data' !! k = Some v) /\
    is_Some (data' !! "profiles"%string) /\
    is_Some (data' !! "activeProfile"%string).
Proof.
  intros (data & profiles & Hl & Hp).
  exists (written data profiles profile payload).
  split; [by apply save_usable|]. split; [|split].
  - intros k H1 H2. apply written_plain_lookup. by intros [|].
  - intros k v Hk. unfold written. by apply lookup_union_Some_l.
  - unfold written. split.
    + rewrite lookup_union. 
      erewrite (proj2 (map_lookup_filter_Some _ _ "profiles"%string _)).
      * by destruct (payload !! "profiles"%string).
      * split; [|by left]. by rewrite lookup_insert_ne, lookup_insert_eq.
    + rewrite lookup_union.
      erewrite (proj2 (map_lookup_filter_Some _ _ "activeProfile"%string _)).
      * by destruct (payload !! "activeProfile"%string).
      * split; [|by right]. by rewrite lookup_insert_eq.
Qed.

Lemma save_mirrors_payload_witness :
  let f := Content (JObj {[ "profiles"%string := JObj {[ "b"%string := JObj {[ "scanned"%string := JNum 7 ]} ]};
                            "activeProfile"%string := JStr "b";
                            "scanned"%string := JNum 7 ]}) in
  exists data',
    save_results_profile f "a" {[ "total"%string := JNum 3 ]} = Ok (Content (JObj data')) /\
    data' !! "total"%string = Some (JNum 3) /\ data' !! "scanned"%string = None.
Proof.
  intros f.
  destruct (save_mirrors_payload f "a" {[ "total"%string := JNum 3 ]})
    as (data' & Hsave & Hmirror & _).
  - eexists _, _. split; reflexivity.
  - exists data'. split; [exact Hsave|].
    split; (rewrite Hmirror; [reflexivity | discriminate | discriminate]).
Defined.

(** C8: a flat document (a bare scan result) is read as a store whose
    ["default"] profile is that document, with ["default"] active and the
    document's own keys still present; a file that is absent or cannot be read
    or decoded is read as the empty store. *)
Theorem load_wraps_flat_and_tolerates_corruption (data : gmap string json) :
  flat_shape data ->
  (exists wrapped,
     _load_all_results (Content (JObj data)) = Ok (JObj wrapped) /\
     wrapped !! "profiles"%string = Some (JObj {[ "default"%string := JObj data ]}) /\
     wrapped !! "activeProfile"%string = Some (JStr "default") /\
     (forall k v, data !! k = Some v -> wrapped !! k = Some v)) /\
  read_profile (Content (JObj data)) "default" = Some (JObj data) /\
  _load_all_results Unreadable =
    Ok (JObj {[ "profiles"%string := JObj ∅; "activeProfile"%string := JStr "default" ]}) /\
  _load_all_results Missing =
    Ok (JObj {[ "profiles"%string := JObj ∅; "activeProfile"%string := JStr "default" ]}).
Proof.
  intros (Hc & Hp & Ha).
  assert (Hload : _load_all_results (Content (JObj data)) =
    Ok (JObj (data ∪ {[ "profiles"%string := JObj {[ "default"%string := JObj data ]};
                        "activeProfile"%string := JStr "default" ]}))).
  { unfold _load_all_results. rewrite py_or_obj. simpl.
    rewrite bool_decide_eq_false_2 by (rewrite Hp; by intros [? ?]).
    simpl. by rewrite bool_decide_eq_true_2. }
  split; [|split; [|split; reflexivity]].
  - eexists. split; [exact Hload|]. split; [|split].
    + by rewrite lookup_union_r.
    + by rewrite lookup_union_r.
    + intros k v Hk. by apply lookup_union_Some_l.
  - unfold read_profile. rewrite Hload.
    by rewrite lookup_union_r.
Qed.

(** A file that decodes, but to a number, is another matter: the membership
    test on it raises before any fallback. *)
Remark load_number_raises : _load_all_results (Content (JNum 5)) = Raise BuiltinError.
Proof. reflexivity. Qed.

Lemma load_wraps_flat_and_tolerates_corruption_witness :
  read_profile
    (Content (JObj {[ "counts"%string := JObj {[ "A"%string := JNum 2 ]};
                      "scanned"%string := JNum 1 ]})) "default" =
  Some (JObj {[ "counts"%string := JObj {[ "A"%string := JNum 2 ]};
                "scanned"%string := JNum 1 ]}).
Proof.
  apply (load_wraps_flat_and_tolerates_corruption
           {[ "counts"%string := JObj {[ "A"%string := JNum 2 ]};
              "scanned"%string := JNum 1 ]}).
  repeat split. by eexists.
Defined.

End StoreFacts.

(** ** The scan loop *)

Module EngineFacts.
Import Json Profile Store Payload Engine StoreFacts.

Lemma to_json_plain (p : payload) : plain (to_json p).
Proof. split; reflexivity. Qed.

Lemma usable_Missing : usable Missing.
Proof. eexists _, _. split; reflexivity. Qed.

(** A write with a scan result goes through on a usable file, leaves a
    usable file, and the result can be read back from it. *)
Lemma save_keeps_usable f profile (p : payload) :
  usable f ->
  exists f', save_results_profile f profile (to_json p) = Ok f' /\ usable f' /\
             read_profile f' profile = Some (JObj (to_json p)).
Proof.
  intros (data & profiles & Hl & Hp).
  eexists. split; [by apply (save_usable _ data profiles)|].
  assert (Hs : profile_store
                 (Content (JObj (written data profiles profile (to_json p))))
                 (written data profiles profile (to_json p))
                 (<[ profile := JObj (to_json p) ]> profiles)).
  { split; [reflexivity|]. apply written_profiles, to_json_plain. }
  split; [by eapply profile_store_usable|].
  by rewrite (read_profile_store _ _ _ _ Hs), lookup_insert_eq.
Qed.

Lemma save_marks_app tr1 tr2 : save_marks (tr1 ++ tr2) = save_marks tr1 ++ save_marks tr2.
Proof. unfold save_marks. apply flat_map_app. Qed.

Lemma persist_ok W names profile s :
  usable (st_store s) ->
  exists s', persist W names profile s = (s', Ok tt) /\
             st_counts s' = st_counts s /\ st_scanned s' = st_scanned s /\
             usable (st_store s') /\
             save_marks (st_trace s') = save_marks (st_trace s) ++ [st_scanned s] /\
             read_profile (st_store s') profile =
               Some (JObj (to_json (make_payload (utcnow W (nb_saves (st_trace s)))
                                                 (cv2 W) names (st_counts s)
                                                 (st_scanned s)))).
Proof.
  intros Hu. unfold persist.
  destruct (save_keeps_usable (st_store s) profile
              (make_payload (utcnow W (nb_saves (st_trace s))) (cv2 W) names
                            (st_counts s) (st_scanned s)) Hu)
    as (f' & -> & Hu' & Hread).
  eexists. split; [reflexivity|]. simpl. repeat split; [done| |done].
  by rewrite save_marks_app.
Qed.

Lemma scan_name_carries_on W name s :
  carries_on W name -> exists c, scan_name W name s = (s, Ok c).
Proof.
  unfold carries_on, scan_name. destruct (look W name) as [c|e|e]; [eauto| |done].
  intros ->. eauto.
Qed.

Lemma scan_name_breaks_off W name e s :
  breaks_off W name e -> scan_name W name s = (s, Raise e).
Proof.
  unfold breaks_off, scan_name. destruct (look W name) as [c|e'|e']; [done| |].
  - by intros [-> ->].
  - by intros ->.
Qed.

Lemma checkpoints_from_S a n :
  0 <= n ->
  checkpoints_from a (n + 1) =
    (if (a + 1) mod SAVE_EVERY =? 0 then [a + 1] else []) ++ checkpoints_from (a + 1) n.
Proof.
  intros Hn. unfold checkpoints_from.
  rewrite (seqZ_cons (a + 1) (n + 1)) by lia. simpl.
  replace (Z.succ (a + 1)) with (a + 1 + 1) by lia.
  replace (Z.pred (n + 1)) with n by lia.
  by destruct ((a + 1) mod SAVE_EVERY =? 0).
Qed.

Lemma checkpoints_from_range a n x :
  In x (checkpoints_from a n) -> a < x <= a + n /\ x mod SAVE_EVERY = 0.
Proof.
  unfold checkpoints_from. intros Hin. apply filter_In in Hin as [Hin Hx].
  apply list_elem_of_In, elem_of_seqZ in Hin. lia.
Qed.

Lemma checkpoints_below n : 0 <= n < SAVE_EVERY -> checkpoints n = [].
Proof.
  intros Hn. destruct (checkpoints n) as [|x l] eqn:E; [done|].
  assert (Hin : In x (checkpoints n)) by (rewrite E; by left).
  apply checkpoints_from_range in Hin as [Hr Hm].
  rewrite Z.mod_small in Hm by (unfold SAVE_EVERY in *; lia). lia.
Qed.

(** The loop over names that all carry on: it ends normally, has counted every
    name, and has written exactly at the multiples of [SAVE_EVERY]. *)
Lemma scan_loop_carries_on W names profile todo :
  Forall (carries_on W) todo ->
  forall s, usable (st_store s) ->
  exists s', scan_loop W names profile todo s = (s', Ok tt) /\
             st_scanned s' = st_scanned s + Z.of_nat (length todo) /\
             usable (st_store s') /\
             save_marks (st_trace s') =
               save_marks (st_trace s) ++
               checkpoints_from (st_scanned s) (Z.of_nat (length todo)) /\
             (checkpoints_from (st_scanned s) (Z.of_nat (length todo)) = [] ->
              st_store s' = st_store s).
Proof.
  induction 1 as [|name todo Hname Htodo IH]; intros s Hu.
  - exists s. simpl. unfold checkpoints_from. simpl.
    rewrite app_nil_r. repeat split; [lia | done].
  - destruct (scan_name_carries_on W name s Hname) as [c Hc].
    cbn [scan_loop]. unfold bind at 1. rewrite Hc.
    unfold bind at 1. unfold record at 1. cbn [st_scanned].
    set (s1 := mkState _ _ _ _).
    assert (Hlen : Z.of_nat (length (name :: todo)) = Z.of_nat (length todo) + 1)
      by (simpl length; lia).
    rewrite Hlen, checkpoints_from_S by lia.
    unfold bind at 1.
    destruct ((st_scanned s + 1) mod SAVE_EVERY =? 0) eqn:E.
    + destruct (persist_ok W names profile s1 Hu)
        as (s2 & -> & _ & Hsc & Hu2 & Htr & _).
      destruct (IH s2 Hu2) as (s' & -> & Hsc' & Hu' & Htr' & _).
      exists s'. split; [done|]. rewrite Hsc', Htr', Hsc, Htr. subst s1. simpl.
      repeat split; [lia | done | by rewrite <- app_assoc | done].
    + unfold ret at 1.
      destruct (IH s1 Hu) as (s' & -> & Hsc' & Hu' & Htr' & Hst').
      exists s'. split; [done|]. rewrite Hsc', Htr'. subst s1. simpl.
      repeat split; [lia | done | exact Hst'].
Qed.

Lemma scan_loop_app W names profile l1 l2 s :
  scan_loop W names profile (l1 ++ l2) s =
  bind (scan_loop W names profile l1) (fun _ => scan_loop W names profile l2) s.
Proof.
  revert s. induction l1 as [|name l1 IH]; intros s; [reflexivity|].
  simpl. unfold bind.
  destruct (scan_name W name s) as [s1 [c|e]]; [|done].
  destruct (record name c s1) as [s2 [n|e]]; [|done].
  destruct (n mod SAVE_EVERY =? 0).
  - destruct (persist W names profile s2) as [s3 [u|e]]; [apply IH | done].
  - unfold ret. apply IH.
Qed.

Lemma checkpoints_30 : checkpoints 30 = [12; 24].
Proof. reflexivity. Qed.

(** C6: a run in which no turn leaves the loop writes after every
    [SAVE_EVERY]-th name and once more at the end, then stops the listener;
    the result over all the names can be read back under the resolved
    profile; over 30 names the writes are those after the 12th, the 24th and
    the 30th name. *)
Theorem main_checkpoints_then_final_write
    (W : world) (profile env_ARCHI_PROFILE : option string)
    (cfg results : file) (names : list string) :
  usable results -> Forall (carries_on W) names ->
  exists s,
    main W profile env_ARCHI_PROFILE cfg results names = (s, Ok tt) /\
    st_scanned s = Z.of_nat (length names) /\
    save_marks (st_trace s) =
      checkpoints (Z.of_nat (length names)) ++ [Z.of_nat (length names)] /\
    last (st_trace s) = Some ListenerStopped /\
    (exists stamp,
       read_profile (st_store s)
                    (_resolve_profile profile env_ARCHI_PROFILE cfg results) =
       Some (JObj (to_json (make_payload stamp (cv2 W) names (st_counts s)
                                         (Z.of_nat (length names)))))) /\
    (length names = 30%nat -> save_marks (st_trace s) = [12; 24; 30]).
Proof.
  intros Hu Hnames. unfold main.
  set (p := _resolve_profile _ _ _ _).
  destruct (scan_loop_carries_on W names p names Hnames (mkState [] 0 results []) Hu)
    as (s1 & Hloop & Hsc & Hu1 & Htr & _).
  destruct (persist_ok W names p s1 Hu1)
    as (s2 & Hfin & Hc2 & Hsc2 & _ & Htr2 & Hread).
  unfold finally_stop_listener, bind. rewrite Hloop, Hfin.
  eexists. split; [reflexivity|]. simpl in *.
  assert (Hmarks : save_marks (st_trace s2 ++ [ListenerStopped]) =
                   checkpoints (Z.of_nat (length names)) ++ [Z.of_nat (length names)]).
  { rewrite save_marks_app, Htr2, Htr, Hsc. simpl. by rewrite app_nil_r. }
  split; [lia|]. split; [exact Hmarks|]. split; [apply last_snoc|]. split.
  - eexists. rewrite Hread, Hc2, Hsc. reflexivity.
  - intros H30. rewrite Hmarks, H30. reflexivity.
Qed.

Lemma main_checkpoints_then_final_write_witness :
  let W := mkWorld (fun _ => Counted 1) (fun _ => "2024-01-01T00:00:00"%string) true in
  let names := map (fun i => string_of_list_ascii [ascii_of_nat (65 + i)]) (seq 0 30) in
  exists s,
    main W None None Missing Missing names = (s, Ok tt) /\
    save_marks (st_trace s) = [12; 24; 30].
Proof.
  intros W names.
  destruct (main_checkpoints_then_final_write W None None Missing Missing names)
    as (s & Hmain & _ & _ & _ & _ & H30).
  - apply usable_Missing.
  - apply Forall_forall. intros name _. exact I.
  - exists s. split; [exact Hmain | apply H30; reflexivity].
Defined.

(** C1 (amended): when a turn leaves the loop with an exception, the run
    ends with that exception after stopping the listener; the only writes are
    the checkpoints taken at the multiples of [SAVE_EVERY] among the names
    already counted, no final write is made, and with fewer than
    [SAVE_EVERY] names counted the results file is left as it was. *)
Theorem interrupted_run_keeps_checkpoints_only
    (W : world) (profile env_ARCHI_PROFILE : option string)
    (cfg results : file) (counted : list string) (name : string)
    (rest : list string) (e : exn) :
  usable results -> Forall (carries_on W) counted -> breaks_off W name e ->
  exists s,
    main W profile env_ARCHI_PROFILE cfg results (counted ++ name :: rest) =
      (s, Raise e) /\
    st_scanned s = Z.of_nat (length counted) /\
    save_marks (st_trace s) = checkpoints (Z.of_nat (length counted)) /\
    last (st_trace s) = Some ListenerStopped /\
    (Z.of_nat (length counted) < SAVE_EVERY -> st_store s = results).
Proof.
  intros Hu Hcounted Hbreak. unfold main.
  set (p := _resolve_profile _ _ _ _).
  set (names := counted ++ name :: rest).
  destruct (scan_loop_carries_on W names p counted Hcounted (mkState [] 0 results []) Hu)
    as (s1 & Hloop & Hsc & Hu1 & Htr & Hst).
  unfold finally_stop_listener, bind. unfold names at 2.
  rewrite scan_loop_app. unfold bind at 1. rewrite Hloop.
  cbn [scan_loop]. unfold bind at 1.
  rewrite (scan_name_breaks_off W name e s1 Hbreak).
  eexists. split; [reflexivity|]. simpl in *.
  split; [lia|]. split; [|split; [apply last_snoc|]].
  - rewrite save_marks_app, Htr. simpl. by rewrite app_nil_r.
  - intros Hlt. apply Hst. apply checkpoints_below. lia.
Qed.

Lemma interrupted_run_keeps_checkpoints_only_witness :
  let W := mkWorld (fun n => if String.eqb n "stop" then Interrupted KeyboardInterrupt
                             else Counted 2)
                   (fun _ => "2024-01-01T00:00:00"%string) true in
  let counted := map (fun i => string_of_list_ascii [ascii_of_nat (65 + i)]) (seq 0 13) in
  exists s,
    main W None None Missing Missing (counted ++ ["stop"; "after"]%string) =
      (s, Raise KeyboardInterrupt) /\
    save_marks (st_trace s) = [12].
Proof.
  intros W counted.
  destruct (interrupted_run_keeps_checkpoints_only W None None Missing Missing
              counted "stop" ["after"%string] KeyboardInterrupt)
    as (s & Hmain & _ & Hmarks & _ & _).
  - apply usable_Missing.
  - subst counted. cbn [map seq]. repeat (constructor; [exact I|]). constructor.
  - reflexivity.
  - exists s. split; [exact Hmain | exact Hmarks].
Defined.

(** C1, as worded, fails: a fail-safe abort on the second name, after the
    first was counted, leaves the loop through [finally], which stops the
    listener and writes nothing; the results file is as it was, and the
    exception ends the process. *)
Lemma abort_skips_final_write :
  let W := mkWorld (fun n => if String.eqb n "b" then Interrupted FailSafeException
                             else Counted 1)
                   (fun _ => "2024-01-01T00:00:00"%string) true in
  main W None None Missing Missing ["a"; "b"; "c"]%string =
    (mkState [("a"%string, 1)] 1 Missing [ListenerStopped], Raise FailSafeException) /\
  snd (script W None Missing Missing ["a"; "b"; "c"]%string) = 1 /\
  (exists s p, main W None None Missing Missing ["a"]%string = (s, Ok tt) /\
               st_trace s = [Saved "default" p; ListenerStopped] /\ scanned p = 1).
Proof.
  split; [reflexivity|]. split; [reflexivity|].
  eexists _, _. split; [reflexivity|]. split; reflexivity.
Qed.

End EngineFacts.

(** ** More on de-duplication and the highlight *)

Module DedupExtra.
Import Dedup DedupFacts Highlight.

Lemma ratio_unit_interval (inter union : Z) :
  0 <= inter <= union -> 0 < union ->
  (0 <= inject_Z inter / inject_Z union <= 1)%Q.
Proof.
  intros [H0 H1] Hu.
  assert (HuQ : (0 < inject_Z union)%Q) by (rewrite <- (Zlt_Qlt 0); exact Hu).
  split.
  - apply Qle_shift_div_l; [exact HuQ|].
    rewrite Qmult_0_l. change 0%Q with (inject_Z 0).
    rewrite <- Zle_Qle. exact H0.
  - apply Qle_shift_div_r; [exact HuQ|].
    rewrite Qmult_1_l. rewrite <- Zle_Qle. exact H1.
Qed.

(** X1: The overlap ratio does not depend on the order of its arguments, and for
    boxes with non-negative sides it lies between 0 and 1. *)
Theorem rect_iou_symmetric_bounded (a b : Box) :
  0 <= width a -> 0 <= height a -> 0 <= width b -> 0 <= height b ->
  _rect_iou a b = _rect_iou b a /\ (0 <= _rect_iou a b <= 1)%Q.
Proof.
  intros Hwa Hha Hwb Hhb. split; [apply _rect_iou_sym|].
  unfold _rect_iou. cbv zeta.
  set (iw := Z.max 0 (Z.min (left a + width a) (left b + width b) - Z.max (left a) (left b))).
  set (ih := Z.max 0 (Z.min (top a + height a) (top b + height b) - Z.max (top a) (top b))).
  assert (Hiw : 0 <= iw <= width a /\ iw <= width b) by (subst iw; lia).
  assert (Hih : 0 <= ih <= height a /\ ih <= height b) by (subst ih; lia).
  assert (Ha : iw * ih <= width a * height a) by nia.
  assert (Hb : iw * ih <= width b * height b) by nia.
  assert (Hi : 0 <= iw * ih) by nia.
  destruct (Z.eqb_spec (width a * height a + width b * height b - iw * ih) 0) as [|Hne].
  - split; [apply Qle_refl | discriminate].
  - apply ratio_unit_interval; lia.
Qed.

Lemma rect_iou_symmetric_bounded_witness :
  (0 <= _rect_iou (mkBox 0 0 10 10) (mkBox 5 0 10 10) <= 1)%Q.
Proof.
  apply (rect_iou_symmetric_bounded (mkBox 0 0 10 10) (mkBox 5 0 10 10)); simpl; lia.
Defined.

Lemma fold_keep_extends t l : forall kept,
  exists r, fold_left (keep_step t) l kept = kept ++ r /\ sublist r l.
Proof.
  induction l as [|b l IH]; intros kept; simpl.
  - exists []. by rewrite app_nil_r.
  - unfold keep_step at 2. destruct (forallb _ kept).
    + destruct (IH (kept ++ [b])) as (r & -> & Hr).
      exists (b :: r). rewrite <- app_assoc. split; [done | by constructor].
    + destruct (IH kept) as (r & -> & Hr). exists r. split; [done | by constructor].
Qed.

Lemma dedup_sub_input boxes t : _dedup_overlaps boxes t ⊆+ boxes.
Proof.
  rewrite dedup_fold.
  destruct (fold_keep_extends t (sorted boxes) []) as (r & -> & Hr). simpl.
  etrans; [by apply sublist_submseteq|]. apply Permutation_submseteq, sorted_perm.
Qed.

Lemma sorted_head boxes :
  boxes <> [] ->
  exists b rest, sorted boxes = b :: rest /\ In b boxes /\
                 forall c, In c boxes -> key_le b c.
Proof.
  intros Hne. pose proof (sorted_sorted boxes) as Hs.
  pose proof (sorted_perm boxes) as Hp.
  destruct (sorted boxes) as [|b rest] eqn:E.
  - apply Permutation_nil in Hp. done.
  - exists b, rest. split; [done|]. split.
    + eapply Permutation_in; [exact Hp | by left].
    + intros c Hc. apply (Permutation_in _ (Permutation_sym Hp)) in Hc.
      destruct Hc as [<-|Hc].
      * unfold key_le. destruct (key_leb_total (key b) (key b)); done.
      * apply StronglySorted_inv in Hs as [_ Hall].
        rewrite Forall_forall in Hall. apply Hall. by apply list_elem_of_In.
Qed.

Lemma dedup_head (boxes : list Box) (t : Q) :
  boxes <> [] ->
  exists b rest,
    _dedup_overlaps boxes t = b :: rest /\ In b boxes /\
    forall c, In c boxes -> key_le b c.
Proof.
  intros Hne. destruct (sorted_head boxes Hne) as (b & rest & Hs & Hin & Hmin).
  rewrite dedup_fold, Hs. simpl. unfold keep_step at 2. simpl.
  destruct (fold_keep_extends t rest [b]) as (r & -> & _).
  exists b, r. done.
Qed.

(** X5: The first box kept is the one the sort puts first: no input box lies
    further left, nor higher at the same abscissa. It is the box that
    [highlight_first_match] is given. *)
Theorem dedup_first_is_leftmost (boxes : list Box) (t : Q) :
  boxes <> [] ->
  exists b rest,
    _dedup_overlaps boxes t = b :: rest /\ In b boxes /\
    forall c, In c boxes ->
      left b <= left c /\ (left b = left c -> top b <= top c).
Proof.
  intros Hne. destruct (dedup_head boxes t Hne) as (b & rest & Heq & Hin & Hmin).
  exists b, rest. split; [done|]. split; [done|].
  intros c Hc. specialize (Hmin c Hc). unfold key_le, key_leb, key in Hmin.
  simpl in Hmin. lia.
Qed.

Lemma dedup_first_is_leftmost_witness :
  exists b rest,
    _dedup_overlaps [mkBox 9 9 12 12; mkBox 2 40 12 12; mkBox 2 7 12 12] IOU_THRESHOLD
      = b :: rest /\ left b = 2 /\ top b = 7.
Proof.
  destruct (dedup_first_is_leftmost
              [mkBox 9 9 12 12; mkBox 2 40 12 12; mkBox 2 7 12 12] IOU_THRESHOLD)
    as (b & rest & Heq & Hin & Hmin); [discriminate|].
  exists b, rest. split; [exact Heq|].
  assert (H1 := Hmin (mkBox 2 7 12 12) ltac:(simpl; tauto)).
  simpl in Hin. destruct Hin as [<-|[<-|[<-|[]]]]; simpl in *; lia.
Defined.

(** X2: The number of boxes counted is at most the number of candidates, and it
    is zero only when there is no candidate at all: a name with a detection is
    never counted as absent. *)
Theorem count_zero_iff_no_candidate (pack_archi_enabled : bool) (boxes : list Box) :
  0 <= fst (count_boxes pack_archi_enabled boxes) <= Z.of_nat (length boxes) /\
  (fst (count_boxes pack_archi_enabled boxes) = 0 <-> boxes = []).
Proof.
  unfold count_boxes. simpl. split.
  - pose proof (submseteq_length _ _ (dedup_sub_input boxes IOU_THRESHOLD)). lia.
  - split.
    + intros Hz. destruct boxes as [|b l]; [done|].
      destruct (dedup_head (b :: l) IOU_THRESHOLD) as (c & r & Heq & _); [done|].
      rewrite Heq in Hz. simpl in Hz. lia.
    + by intros ->.
Qed.

Lemma sorted_of_sorted l : StronglySorted key_le l -> sorted l = l.
Proof.
  induction 1 as [|a l Hs IH Ha]; [done|]. simpl. rewrite IH.
  destruct l as [|c l]; [done|]. simpl.
  apply Forall_cons in Ha as [Hac _]. unfold key_le in Hac. by rewrite Hac.
Qed.

Lemma sublist_strongly_sorted (l1 l2 : list Box) :
  sublist l1 l2 -> StronglySorted key_le l2 -> StronglySorted key_le l1.
Proof.
  induction 1 as [|x l1 l2 Hsub IH|x l1 l2 Hsub IH]; intros Hs.
  - constructor.
  - apply StronglySorted_inv in Hs as [Hs Hall]. constructor; [by apply IH|].
    rewrite Forall_forall in Hall. apply Forall_forall. intros y Hy.
    apply Hall. by eapply elem_of_sublist.
  - apply StronglySorted_inv in Hs as [Hs _]. by apply IH.
Qed.

Lemma ordpairs_app_head (R : Box -> Box -> Prop) l1 x l2 :
  ForallOrdPairs R (l1 ++ x :: l2) -> Forall (fun a => R a x) l1.
Proof.
  induction l1 as [|a l1 IH]; intros H; [constructor|].
  simpl in H. inversion H as [|? ? Ha Hl]; subst.
  constructor; [|by apply IH].
  rewrite Forall_forall in Ha. apply Ha. apply list_elem_of_In, in_or_app. right. by left.
Qed.

Lemma fold_keep_all t l : forall kept,
  ForallOrdPairs (apart t) (kept ++ l) -> fold_left (keep_step t) l kept = kept ++ l.
Proof.
  induction l as [|b l IH]; intros kept H; simpl; [by rewrite app_nil_r|].
  unfold keep_step at 2.
  assert (Hall : forallb (fun k => Qltb (_rect_iou b k) t) kept = true).
  { apply forallb_forall. intros k Hk. apply Qltb_lt.
    pose proof (ordpairs_app_head _ _ _ _ H) as Hh. rewrite Forall_forall in Hh.
    apply Hh. by apply list_elem_of_In. }
  rewrite Hall. rewrite IH; rewrite <- app_assoc; done.
Qed.

(** X3: De-duplicating twice changes nothing. *)
Theorem dedup_idempotent (boxes : list Box) (t : Q) :
  _dedup_overlaps (_dedup_overlaps boxes t) t = _dedup_overlaps boxes t.
Proof.
  rewrite (dedup_fold boxes).
  destruct (fold_keep_spec t (sorted boxes) []) as (r & Hr & Hsub & Hop); [constructor|].
  rewrite Hr. simpl in *. rewrite dedup_fold.
  rewrite sorted_of_sorted by (eapply sublist_strongly_sorted; [exact Hsub | apply sorted_sorted]).
  by apply (fold_keep_all t r []).
Qed.

(** X4: Two candidates are merged into one exactly when their overlap ratio
    reaches the threshold. *)
Theorem dedup_pair (a b : Box) (t : Q) :
  length (_dedup_overlaps [a; b] t) = if Qltb (_rect_iou a b) t then 2%nat else 1%nat.
Proof.
  unfold _dedup_overlaps. simpl.
  destruct (key_leb (key a) (key b)); simpl; unfold keep_step; simpl.
  - rewrite (_rect_iou_sym b a). by destruct (Qltb (_rect_iou a b) t).
  - by destruct (Qltb (_rect_iou a b) t).
Qed.

Lemma forallb_false_witness (f : Box -> bool) (l : list Box) :
  forallb f l = false -> exists k, In k l /\ f k = false.
Proof.
  induction l as [|a l IH]; simpl; [done|].
  destruct (f a) eqn:E; simpl.
  - intros H. destruct (IH H) as (k & Hk & Hf). exists k. tauto.
  - intros _. exists a. tauto.
Qed.

Lemma fold_keep_covers t l : forall kept b,
  In b l ->
  In b (fold_left (keep_step t) l kept) \/
  exists k, In k (fold_left (keep_step t) l kept) /\ ~ (_rect_iou b k < t)%Q.
Proof.
  induction l as [|c l IH]; intros kept b Hin; [done|].
  simpl. destruct Hin as [->|Hin]; [|by apply IH].
  set (kept' := keep_step t kept b).
  assert (Hk' : kept' = if forallb (fun k => Qltb (_rect_iou b k) t) kept
                        then kept ++ [b] else kept) by reflexivity.
  destruct (fold_keep_extends t l kept') as (r & -> & _).
  destruct (forallb _ kept) eqn:E; rewrite Hk'.
  - left. apply in_or_app. left. apply in_or_app. right. by left.
  - right. apply forallb_false_witness in E as (k & Hk & Hlt).
    exists k. split; [apply in_or_app; by left|].
    intros Hc. apply Qltb_lt in Hc. rewrite Hc in Hlt. done.
Qed.

(** X6: No candidate is lost without cause: every input box is kept or overlaps
    a kept box at the threshold or above. *)
Theorem dedup_covers_input (boxes : list Box) (t : Q) (b : Box) :
  In b boxes ->
  In b (_dedup_overlaps boxes t) \/
  exists k, In k (_dedup_overlaps boxes t) /\ ~ (_rect_iou b k < t)%Q.
Proof.
  intros Hin. rewrite dedup_fold. apply fold_keep_covers.
  eapply Permutation_in; [symmetry; apply sorted_perm | exact Hin].
Qed.

Lemma dedup_covers_input_witness :
  In (mkBox 0 0 46 46) (_dedup_overlaps [mkBox 0 0 40 40; mkBox 0 0 46 46] IOU_THRESHOLD) \/
  exists k, In k (_dedup_overlaps [mkBox 0 0 40 40; mkBox 0 0 46 46] IOU_THRESHOLD) /\
            ~ (_rect_iou (mkBox 0 0 46 46) k < IOU_THRESHOLD)%Q.
Proof.
  apply (dedup_covers_input [mkBox 0 0 40 40; mkBox 0 0 46 46] IOU_THRESHOLD).
  simpl. tauto.
Defined.

End DedupExtra.

(** ** More on the matcher *)

Module MatcherExtra.
Import Dedup DedupFacts Matcher MatcherFacts Highlight DedupExtra.

Lemma where_ge_complete res rows cols thr y x :
  0 <= y < rows -> 0 <= x < cols -> (thr <= res y x)%Q ->
  In (y, x) (where_ge res rows cols thr).
Proof.
  intros Hy Hx Hs. unfold where_ge.
  apply in_flat_map. exists y. split; [apply list_elem_of_In, elem_of_seqZ; lia|].
  apply in_flat_map. exists x. split; [apply list_elem_of_In, elem_of_seqZ; lia|].
  apply Qle_bool_iff in Hs. rewrite Hs. by left.
Qed.

(** X7: At a scale whose resized template passes the two size tests, every
    position of the score map at or above the threshold gives a box at that
    position, offset by the origin of the region. *)
Theorem boxes_at_scale_complete
    (int_mul : Z -> Q -> Z) (matchTemplate : Q -> Z -> Z -> Q)
    (h w : Z) (leftRegion : Region) (s : Q) (x y : Z) :
  let w_s := Z.max 1 (int_mul w s) in
  let h_s := Z.max 1 (int_mul h s) in
  MIN_TEMPLATE_WH <= w_s <= rw leftRegion ->
  MIN_TEMPLATE_WH <= h_s <= rh leftRegion ->
  0 <= x <= rw leftRegion - w_s -> 0 <= y <= rh leftRegion - h_s ->
  (MULTISCALE_THRESHOLD <= matchTemplate s y x)%Q ->
  In (mkBox (rx leftRegion + x) (ry leftRegion + y) w_s h_s)
     (boxes_at_scale int_mul matchTemplate h w leftRegion s).
Proof.
  intros w_s h_s Hw Hh Hx Hy Hs. unfold boxes_at_scale, W_img, H_img. cbv zeta.
  fold w_s h_s.
  replace ((w_s <? MIN_TEMPLATE_WH) || (h_s <? MIN_TEMPLATE_WH)) with false
    by (symmetry; apply orb_false_iff; lia).
  replace ((w_s >? rw leftRegion) || (h_s >? rh leftRegion)) with false
    by (symmetry; apply orb_false_iff; lia).
  apply in_map_iff. exists (y, x). split; [reflexivity|].
  apply where_ge_complete; [lia | lia | exact Hs].
Qed.

Lemma boxes_at_scale_complete_witness :
  In (mkBox 7 6 16 16)
     (boxes_at_scale trunc_mul (fun _ _ _ => 1%Q) 16 16 (mkRegion 3 5 20 18) 1%Q).
Proof.
  apply (boxes_at_scale_complete trunc_mul (fun _ _ _ => 1%Q) 16 16
           (mkRegion 3 5 20 18) 1%Q 4 1); vm_compute; try (split; discriminate).
  discriminate.
Defined.

(** X8: A capture region narrower or lower than the minimum template size
    yields no candidate at any scale, whatever the screen shows: the count
    is zero. *)
Theorem small_region_counts_nothing
    (int_mul : Z -> Q -> Z) (matchTemplate : Q -> Z -> Z -> Q)
    (h w : Z) (leftRegion : Region) :
  rw leftRegion < MIN_TEMPLATE_WH \/ rh leftRegion < MIN_TEMPLATE_WH ->
  multiscale_boxes int_mul matchTemplate h w leftRegion = [] /\
  _count_icons_on_screen_multiscale int_mul matchTemplate h w leftRegion = 0.
Proof.
  intros Hsmall.
  assert (Hnil : multiscale_boxes int_mul matchTemplate h w leftRegion = []).
  { destruct (multiscale_boxes _ _ _ _ _) as [|b l] eqn:E; [done|].
    assert (Hin : In b (multiscale_boxes int_mul matchTemplate h w leftRegion))
      by (rewrite E; by left).
    unfold multiscale_boxes in Hin. apply in_flat_map in Hin as (s & _ & Hin).
    apply boxes_at_scale_well_placed in Hin. unfold well_placed in Hin. lia. }
  split; [exact Hnil|].
  unfold _count_icons_on_screen_multiscale. by rewrite Hnil.
Qed.

Lemma small_region_counts_nothing_witness :
  _count_icons_on_screen_multiscale trunc_mul (fun _ _ _ => 1%Q) 16 16
    (mkRegion 0 0 11 600) = 0.
Proof.
  apply (small_region_counts_nothing trunc_mul (fun _ _ _ => 1%Q) 16 16
           (mkRegion 0 0 11 600)).
  left. simpl. unfold MIN_TEMPLATE_WH. lia.
Defined.

(** X9: With the pack mode on, the two clicks of the highlight after a
    multi-scale count land on one point, inside the capture region. *)
Theorem highlight_clicks_inside_region
    (int_mul : Z -> Q -> Z) (matchTemplate : Q -> Z -> Z -> Q)
    (h w : Z) (leftRegion : Region) (pack_archi_enabled : bool) (x y : Z) :
  In (Click x y)
     (snd (count_boxes pack_archi_enabled
             (multiscale_boxes int_mul matchTemplate h w leftRegion))) ->
  inside x y leftRegion /\
  snd (count_boxes pack_archi_enabled
         (multiscale_boxes int_mul matchTemplate h w leftRegion)) =
    [Click x y; Click x y].
Proof.
  unfold count_boxes. cbn [snd].
  set (boxes := multiscale_boxes int_mul matchTemplate h w leftRegion).
  destruct (_dedup_overlaps boxes IOU_THRESHOLD) as [|b rest] eqn:E; [by intros []|].
  unfold highlight_first_match. destruct pack_archi_enabled; [|by intros []].
  cbn [negb]. cbv zeta. intros Hin.
  assert (Hb : In b boxes).
  { apply list_elem_of_In. eapply elem_of_submseteq; [|apply (dedup_sub_input boxes IOU_THRESHOLD)].
    rewrite E. by left. }
  unfold boxes, multiscale_boxes in Hb. apply in_flat_map in Hb as (s & _ & Hb).
  apply boxes_at_scale_well_placed in Hb.
  destruct Hb as (Hw & Hh & Hl & Hr & Ht & Hbot). unfold MIN_TEMPLATE_WH in *.
  assert (0 <= width b / 2 < width b)
    by (split; [apply Z.div_pos; lia | apply Z.div_lt; lia]).
  assert (0 <= height b / 2 < height b)
    by (split; [apply Z.div_pos; lia | apply Z.div_lt; lia]).
  assert (Hxy : x = left b + width b / 2 /\ y = top b + height b / 2).
  { destruct Hin as [Heq|[Heq|[]]]; by inversion Heq. }
  destruct Hxy as [-> ->]. split; [unfold inside; lia | reflexivity].
Qed.

Lemma highlight_clicks_inside_region_witness :
  inside 11 12 (mkRegion 3 5 30 30).
Proof.
  apply (highlight_clicks_inside_region trunc_mul
           (fun _ y x => if (y =? 1) && (x =? 2) then 1%Q else 0%Q)
           16 16 (mkRegion 3 5 30 30) true 11 12).
  vm_compute. left. reflexivity.
Defined.

End MatcherExtra.

(** ** More on the scan result *)

Module PayloadExtra.
Import Payload PayloadFacts.

Lemma needed_plus_found (counts : list (string * Z)) :
  Z.of_nat (length (map fst (List.filter (fun nk => snd nk <=? 0) counts))) +
  sum (map (fun _ => 1) (List.filter (fun k => k >=? 1) (map snd counts))) =
  Z.of_nat (length counts).
Proof.
  induction counts as [|[n k] l IH]; [reflexivity|].
  simpl. rewrite Z.geb_leb.
  destruct (Z.leb_spec k 0), (Z.leb_spec 1 k); simpl; rewrite ?sum_cons; lia.
Qed.

Lemma items_found_split (counts : list (string * Z)) :
  Forall (fun nk => 0 <= snd nk) counts ->
  sum (map snd counts) =
  sum (map (fun _ => 1) (List.filter (fun k => k >=? 1) (map snd counts))) +
  sum (map (fun nk => Z.max 0 (snd nk - 1)) counts).
Proof.
  induction 1 as [|[n k] l Hk Hl IH]; [reflexivity|].
  simpl in *. rewrite Z.geb_leb.
  destruct (Z.leb_spec 1 k); simpl; rewrite ?sum_cons, IH; lia.
Qed.

(** X10: Every name is either needed or found, and when no count is negative the
    items found are the names found plus the duplicates in excess. *)
Theorem payload_accounting (utcnow : string) (cv2 : bool)
    (names : list string) (counts : list (string * Z)) (scanned : Z) :
  let p := make_payload utcnow cv2 names counts scanned in
  Z.of_nat (length (needed p)) + totalFound p = Z.of_nat (length counts) /\
  (Forall (fun nk => 0 <= snd nk) counts ->
   totalFoundItems p = totalFound p + totalDuplicates p).
Proof.
  cbv zeta. simpl. rewrite sum_extras. split.
  - apply needed_plus_found.
  - apply items_found_split.
Qed.

End PayloadExtra.

(** ** More on profile resolution *)

Module ProfileExtra.
Import Json Profile ProfileFacts.

Lemma allowed_not_space (c : ascii) : allowed c = true -> isspace c = false.
Proof. destruct c as [[] [] [] [] [] [] [] []]; vm_compute; congruence. Qed.

Lemma lstrip_no_space (l : list ascii) :
  Forall (fun c => isspace c = false) l -> lstrip l = l.
Proof. destruct 1 as [|c l Hc _]; [done|]. simpl. by rewrite Hc. Qed.

Lemma strip_no_space (l : list ascii) :
  Forall (fun c => isspace c = false) l -> strip l = l.
Proof.
  intros H. unfold strip. rewrite (lstrip_no_space l H).
  rewrite lstrip_no_space; [apply rev_involutive|].
  apply Forall_forall. intros c Hc. rewrite Forall_forall in H. apply H.
  apply list_elem_of_In. apply list_elem_of_In, in_rev in Hc. exact Hc.
Qed.

Lemma fixed_chars (l : list ascii) :
  Forall (fun c => allowed c = true /\ lower_char c = c) l ->
  lower l = l /\ List.filter allowed l = l.
Proof.
  unfold lower. induction 1 as [|c l [Ha Hc] _ [IH1 IH2]]; [done|].
  cbn [map List.filter]. by rewrite Ha, Hc, IH1, IH2.
Qed.

Lemma clean_fixed (r : string) :
  Forall (fun c => allowed c = true /\ lower_char c = c) (list_ascii_of_string r) ->
  clean r = r.
Proof.
  intros H. unfold clean.
  rewrite strip_no_space
    by (eapply Forall_impl; [exact H|]; intros c [Ha _]; by apply allowed_not_space).
  destruct (fixed_chars _ H) as [-> ->].
  apply string_of_list_ascii_of_string.
Qed.

(** X11: Sanitisation is idempotent: an id that came out of it goes through it
    unchanged. *)
Theorem sanitize_idempotent (s r : string) :
  sanitize s = Some r -> sanitize r = Some r /\ _safe_profile (JStr r) = Ok (Some r).
Proof.
  intros Hs. apply sanitize_sanitized in Hs as [Hne Hall].
  assert (Hr : sanitize r = Some r).
  { unfold sanitize. cbv zeta. rewrite (clean_fixed r Hall).
    by destruct (String.eqb_spec r ""). }
  split; [exact Hr|]. by rewrite _safe_profile_str, Hr.
Qed.

Lemma sanitize_idempotent_witness :
  sanitize " My-Profile_1! " = Some "my-profile_1"%string /\
  sanitize "my-profile_1" = Some "my-profile_1"%string.
Proof.
  split; [reflexivity|].
  apply (sanitize_idempotent " My-Profile_1! " "my-profile_1"). reflexivity.
Defined.

Lemma sanitized_fixed (r : string) : sanitized r -> sanitize r = Some r.
Proof.
  intros [Hne Hall]. unfold sanitize. cbv zeta. rewrite (clean_fixed r Hall).
  by destruct (String.eqb_spec r "").
Qed.

(** Without an explicit argument, a sanitised id in [ARCHI_PROFILE] is the
    profile of the run, whatever the configuration and results files hold. *)
Lemma resolve_env_sanitized (p : string) (cfg results : file) :
  sanitized p -> _resolve_profile None (Some p) cfg results = p.
Proof.
  intros Hp. unfold _resolve_profile. cbn [of_opt truthy negb].
  by rewrite _safe_profile_str, (sanitized_fixed p Hp).
Qed.

(** X12: A scan started by the server runs under the profile the server chose,
    which is one of its three: the request's profile when it is on the
    server's list, ["default"] otherwise. *)
Theorem server_scan_profile (body : json) (query : option string) (p : string)
    (cfg results : file) :
  Serve.scan_start_profile body query = Ok p ->
  (p = "kourial" \/ p = "mikhal" \/ p = "default")%string /\
  _resolve_profile None (Some p) cfg results = p.
Proof.
  intros H.
  assert (Hp : (p = "kourial" \/ p = "mikhal" \/ p = "default")%string).
  { assert (Hsafe : forall v q, Serve._safe_profile v = Ok (Some q) ->
                                (q = "kourial" \/ q = "mikhal")%string).
    { intros v q. unfold Serve._safe_profile. destruct (negb (truthy v)); [done|].
      destruct v; try done. cbv zeta.
      set (x := string_of_list_ascii _).
      destruct (String.eqb_spec x "kourial") as [->|]; [intros [= <-]; by left|].
      destruct (String.eqb_spec x "mikhal") as [->|]; [intros [= <-]; by right|].
      done. }
    unfold Serve.scan_start_profile in H.
    destruct (py_or body (JObj ∅)); try done.
    destruct (Serve._safe_profile (get m "profile")) as [[q|]|] eqn:E; simpl in H;
      try done.
    - injection H as H; subst p. apply Hsafe in E. tauto.
    - injection H as H; subst p. unfold Serve._extract_profile_from_request.
      destruct (Serve._safe_profile (of_opt query)) as [[q|]|] eqn:E'; [|tauto|tauto].
      apply Hsafe in E'. tauto. }
  split; [exact Hp|]. apply resolve_env_sanitized.
  destruct Hp as [-> | [-> | ->]]; (split; [done | simpl; repeat constructor]).
Qed.

Lemma server_scan_profile_witness :
  _resolve_profile None (Some "mikhal"%string) Missing
    (Content (JObj {[ "activeProfile"%string := JStr "kourial" ]})) = "mikhal"%string.
Proof.
  apply (server_scan_profile (JObj {[ "profile"%string := JStr " Mikhal " ]}) None).
  reflexivity.
Defined.

(** X13: A scan started by the dashboard runs under the dashboard's profile id:
    the id it exports is already sanitised, and the scanner's own
    sanitisation leaves it as it is. *)
Theorem dashboard_scan_profile (name : option string) (cfg results : file) :
  _resolve_profile None (Some (Dashboard._safe_profile name)) cfg results =
  Dashboard._safe_profile name.
Proof.
  apply resolve_env_sanitized. unfold Dashboard._safe_profile.
  assert (Hd : sanitized Dashboard.DEFAULT_PROFILE)
    by (split; [done | simpl; repeat constructor]).
  destruct name as [s|]; [|exact Hd].
  destruct (String.eqb s ""); [exact Hd|]. cbv zeta.
  destruct (String.eqb_spec (clean s) ""); [exact Hd|].
  split; [done | apply clean_chars].
Qed.

End ProfileExtra.

(** ** More on the result store *)

Module StoreExtra.
Import Json Store StoreFacts.

(** What a write leaves does not depend on the top level of the document it
    found: the payload, the map of profiles and the active profile. *)
Lemma written_eq data profiles profile payload :
  written data profiles profile payload =
  payload ∪ {[ "profiles"%string := JObj (<[ profile := JObj payload ]> profiles);
               "activeProfile"%string := JStr profile ]}.
Proof.
  unfold written. f_equal. apply map_eq. intros k.
  destruct (decide (k = "activeProfile"%string)) as [->|Ha].
  { transitivity (Some (JStr profile)); [|done].
    apply map_lookup_filter_Some. split; [by rewrite lookup_insert_eq | by right]. }
  destruct (decide (k = "profiles"%string)) as [->|Hp].
  { transitivity (Some (JObj (<[ profile := JObj payload ]> profiles))); [|done].
    apply map_lookup_filter_Some.
    split; [by rewrite lookup_insert_ne, lookup_insert_eq | by left]. }
  transitivity (@None json).
  - apply map_lookup_filter_None. right. intros v _ [|]; done.
  - symmetry. rewrite lookup_insert_ne by done. by rewrite lookup_singleton_ne.
Qed.

Lemma read_profile_usable f data profiles q :
  _load_all_results f = Ok (JObj data) ->
  py_or (get data "profiles") (JObj ∅) = JObj profiles ->
  read_profile f q = profiles !! q.
Proof.
  intros Hl Hp. unfold read_profile. rewrite Hl.
  unfold get in Hp. destruct (data !! "profiles"%string) as [v|]; simpl in Hp.
  - unfold py_or in Hp. destruct (truthy v) eqn:Ht.
    + by subst v.
    + injection Hp as <-. rewrite lookup_empty. destruct v; try done.
      simpl in Ht. destruct (Nat.eqb_spec (size m) 0) as [Hz|]; [|done].
      apply map_size_empty_iff in Hz. subst m. apply lookup_empty.
  - unfold py_or in Hp. simpl in Hp. injection Hp as <-. by rewrite lookup_empty.
Qed.

Lemma save_frame (f : file) (p : string) (v : gmap string json) :
  usable f -> plain v ->
  exists f',
    save_results_profile f p v = Ok f' /\ usable f' /\
    read_profile f' p = Some (JObj v) /\
    active_profile f' = Some (JStr p) /\
    forall q, q <> p -> read_profile f' q = read_profile f q.
Proof.
  intros (data & profiles & Hl & Hp) [Hv1 Hv2].
  assert (Hs : profile_store (Content (JObj (written data profiles p v)))
                 (written data profiles p v) (<[ p := JObj v ]> profiles)).
  { split; [reflexivity | by apply written_profiles]. }
  eexists. split; [by apply (save_usable _ data profiles)|].
  split; [by eapply profile_store_usable|].
  split; [by rewrite (read_profile_store _ _ _ _ Hs), lookup_insert_eq|].
  split.
  { unfold active_profile. rewrite (load_profile_store _ _ _ Hs).
    by apply written_active. }
  intros q Hq. rewrite (read_profile_store _ _ _ _ Hs), lookup_insert_ne by done.
  symmetry. by eapply read_profile_usable.
Qed.

(** X14: On any file a write goes through on (absent, undecodable, flat or
    profiled), the write of a payload without the two reserved keys leaves
    every other profile reading as before, and the written profile reading
    as the payload. *)
Theorem save_preserves_other_profiles
    (f : file) (p : string) (v : gmap string json) :
  usable f -> plain v ->
  exists f',
    save_results_profile f p v = Ok f' /\
    read_profile f' p = Some (JObj v) /\
    forall q, q <> p -> read_profile f' q = read_profile f q.
Proof.
  intros Hu Hv. destruct (save_frame f p v Hu Hv) as (f' & Hs & _ & Hp & _ & Hq).
  eauto.
Qed.

Lemma save_preserves_other_profiles_witness :
  exists f',
    save_results_profile
      (Content (JObj {[ "counts"%string := JObj {[ "A"%string := JNum 2 ]} ]}))
      "b" {[ "scanned"%string := JNum 3 ]} = Ok f' /\
    read_profile f' "default" =
      Some (JObj {[ "counts"%string := JObj {[ "A"%string := JNum 2 ]} ]}).
Proof.
  destruct (save_preserves_other_profiles
              (Content (JObj {[ "counts"%string := JObj {[ "A"%string := JNum 2 ]} ]}))
              "b" {[ "scanned"%string := JNum 3 ]})
    as (f' & Hsave & _ & Hothers).
  - eexists _, _. split; reflexivity.
  - split; reflexivity.
  - exists f'. split; [exact Hsave|].
    rewrite (Hothers "default"%string); [reflexivity | discriminate].
Defined.

(** X15: Writing the same payload under the same profile a second time leaves the
    file as the first write left it. *)
Theorem save_twice_same_file
    (f f' : file) (p : string) (v : gmap string json) :
  usable f -> plain v ->
  save_results_profile f p v = Ok f' ->
  save_results_profile f' p v = Ok f'.
Proof.
  intros (data & profiles & Hl & Hp) [Hv1 Hv2] Hsave.
  rewrite (save_usable _ data profiles p v Hl Hp) in Hsave. injection Hsave as <-.
  assert (Hs : profile_store (Content (JObj (written data profiles p v)))
                 (written data profiles p v) (<[ p := JObj v ]> profiles)).
  { split; [reflexivity | by apply written_profiles]. }
  destruct (profile_store_usable _ _ _ Hs) as (d1 & p1 & Hl1 & Hp1).
  rewrite (save_usable _ d1 p1 p v Hl1 Hp1).
  assert (p1 = <[ p := JObj v ]> profiles).
  { rewrite (load_profile_store _ _ _ Hs) in Hl1. injection Hl1 as <-.
    destruct Hs as [_ Hps]. unfold get in Hp1. rewrite Hps in Hp1. simpl in Hp1.
    rewrite py_or_obj in Hp1. congruence. }
  subst p1. do 3 f_equal. rewrite !written_eq. by rewrite insert_insert_eq.
Qed.

Lemma save_twice_same_file_witness :
  exists f', save_results_profile Missing "a" {[ "scanned"%string := JNum 3 ]} = Ok f' /\
             save_results_profile f' "a" {[ "scanned"%string := JNum 3 ]} = Ok f'.
Proof.
  eexists. split; [reflexivity|].
  apply (save_twice_same_file Missing _ "a" {[ "scanned"%string := JNum 3 ]}).
  - eexists _, _. split; reflexivity.
  - split; reflexivity.
  - reflexivity.
Defined.

(** X16: The first write over an absent or undecodable file creates a store
    whose only profile is the one written, recorded as active. *)
Theorem save_on_fresh_file
    (f : file) (p : string) (v : gmap string json) :
  f = Missing \/ f = Unreadable -> plain v ->
  exists f',
    save_results_profile f p v = Ok f' /\
    active_profile f' = Some (JStr p) /\
    forall q, read_profile f' q = if decide (q = p) then Some (JObj v) else None.
Proof.
  intros Hf Hv.
  assert (Hl : _load_all_results f = Ok (JObj empty_store))
    by (destruct Hf as [-> | ->]; reflexivity).
  assert (Hu : usable f) by (exists empty_store, ∅; split; [exact Hl | reflexivity]).
  destruct (save_frame f p v Hu Hv) as (f' & Hsave & _ & Hp & Ha & Hothers).
  exists f'. split; [exact Hsave|]. split; [exact Ha|].
  intros q. destruct (decide (q = p)) as [->|Hq]; [exact Hp|].
  rewrite (Hothers q Hq). unfold read_profile. rewrite Hl. reflexivity.
Qed.

Lemma save_on_fresh_file_witness :
  exists f',
    save_results_profile Unreadable "a" {[ "scanned"%string := JNum 3 ]} = Ok f' /\
    read_profile f' "default" = None.
Proof.
  destruct (save_on_fresh_file Unreadable "a" {[ "scanned"%string := JNum 3 ]})
    as (f' & Hsave & _ & Hread).
  - by right.
  - split; reflexivity.
  - exists f'. split; [exact Hsave|]. by rewrite Hread.
Defined.

Lemma load_returns_object (f : file) (v : json) :
  _load_all_results f = Ok v -> exists d, v = JObj d.
Proof.
  unfold _load_all_results.
  set (data := match f with Content v => py_or v (JObj ∅) | _ => JObj ∅ end).
  destruct data as [| b | n | s | l | m]; simpl; try done.
  - destruct (is_substring "profiles" s); simpl; [done|].
    destruct (is_substring "counts" s); [done|]. intros [= <-]. eauto.
  - destruct (existsb (is_str "profiles") l); simpl; [done|].
    destruct (existsb (is_str "counts") l); [done|]. intros [= <-]. eauto.
  - destruct (bool_decide _); simpl.
    + destruct (get m "profiles"); simpl;
        try (destruct (bool_decide _)); intros [= <-]; eauto.
    + destruct (bool_decide _); intros [= <-]; eauto.
Qed.

(** X17: The server's reader and the scanner's agree wherever the scanner's
    returns; where the scanner's raises (a file that decodes to something
    other than an object), the server's gives the empty store. *)
Theorem server_load_agrees (f : file) :
  (forall d, _load_all_results f = Ok (JObj d) -> Serve._load_all_results f = d) /\
  (forall e, _load_all_results f = Raise e -> Serve._load_all_results f = empty_store).
Proof.
  unfold _load_all_results, Serve._load_all_results.
  set (data := match f with Content v => py_or v (JObj ∅) | _ => JObj ∅ end).
  destruct data as [| b | n | s | l | m]; simpl.
  1-3: split; [done | reflexivity].
  - split; [|reflexivity]. intros d.
    destruct (is_substring "profiles" s); simpl; [done|].
    destruct (is_substring "counts" s); [done|]. by intros [= <-].
  - split; [|reflexivity]. intros d.
    destruct (existsb (is_str "profiles") l); simpl; [done|].
    destruct (existsb (is_str "counts") l); [done|]. by intros [= <-].
  - unfold get. destruct (m !! "profiles"%string) as [v|] eqn:E; simpl.
    + destruct v; simpl; split; try done;
        try (intros d; destruct (bool_decide _); by intros [= <-]);
        try (intros e; by destruct (bool_decide _)).
      by intros d [= <-].
    + split; [|intros e; by destruct (bool_decide _)].
      intros d. destruct (bool_decide _); by intros [= <-].
Qed.

(** X18: What the scanner wrote under a non-empty profile id is what the server
    serves: as the payload of the active profile, and for any request that
    names that profile. *)
Theorem server_reads_scanner_write
    (now : string) (f f' : file) (p : string) (v : gmap string json) :
  usable f -> plain v -> p <> ""%string ->
  save_results_profile f p v = Ok f' ->
  Serve._load_results now f' = Ok v /\
  forall query, Serve._extract_profile_from_request query = p ->
                Serve.get_results now f' query = Ok v.
Proof.
  intros (data & profiles & Hl & Hp) [Hv1 Hv2] Hne Hsave.
  rewrite (save_usable _ data profiles p v Hl Hp) in Hsave. injection Hsave as <-.
  set (W := written data profiles p v).
  assert (HP : W !! "profiles"%string = Some (JObj (<[ p := JObj v ]> profiles)))
    by (by apply written_profiles).
  assert (HA : W !! "activeProfile"%string = Some (JStr p))
    by (by apply written_active).
  assert (Hload : Serve._load_all_results (Content (JObj W)) = W).
  { unfold Serve._load_all_results. rewrite py_or_obj. by rewrite HP. }
  assert (Hread : Serve._read_profile_payload now W (JStr p) = Ok v).
  { unfold Serve._read_profile_payload, get. rewrite HP. simpl.
    rewrite py_or_obj. simpl. unfold get. by rewrite lookup_insert_eq. }
  split.
  - unfold Serve._load_results. rewrite Hload. unfold get at 1. rewrite HA. simpl.
    unfold py_or. simpl. destruct (String.eqb_spec p ""); [done|]. exact Hread.
  - intros query Hq. unfold Serve.get_results. by rewrite Hload, Hq.
Qed.

Lemma server_reads_scanner_write_witness :
  exists f',
    save_results_profile Missing "mikhal" {[ "scanned"%string := JNum 3 ]} = Ok f' /\
    Serve.get_results "t" f' (Some "Mikhal"%string) = Ok {[ "scanned"%string := JNum 3 ]}.
Proof.
  eexists. split; [reflexivity|].
  apply (server_reads_scanner_write "t" Missing _ "mikhal" {[ "scanned"%string := JNum 3 ]}).
  - eexists _, _. split; reflexivity.
  - split; reflexivity.
  - discriminate.
  - reflexivity.
  - reflexivity.
Defined.

End StoreExtra.

(** ** The catalogue of names *)

Module CatalogueFacts.
Import Json Catalogue.

Lemma foldM_invariant {A S : Type} (P : S -> Prop) (f : S -> A -> result S) :
  (forall st x st', P st -> f st x = Ok st' -> P st') ->
  forall l st st', P st -> foldM f st l = Ok st' -> P st'.
Proof.
  intros Hf. induction l as [|x l IH]; intros st st' HP; simpl.
  - by intros [= <-].
  - destruct (f st x) as [st1|e] eqn:E; simpl; [|done].
    apply IH. by eapply Hf.
Qed.

Lemma visit_archi_tidy st archi st' :
  tidy st -> visit_archi st archi = Ok st' -> tidy st'.
Proof.
  intros (Hnd & Hseen & Hne). unfold visit_archi.
  destruct archi as [| | | | |m]; try done.
  destruct (negb (truthy (get m "nom"))) eqn:Ht; [by intros [= <-]|].
  destruct (get m "nom") as [| | |s| |]; try (by intros [= <-]).
  destruct (bool_decide (s ∈ fst st)) eqn:Hin; intros [= <-]; [done|].
  apply bool_decide_eq_false in Hin.
  split; [|split]; cbn [fst snd].
  - apply NoDup_app. split; [done|]. split; [|apply NoDup_singleton].
    intros x Hx Hx'. apply list_elem_of_singleton in Hx' as ->. by apply Hin, Hseen.
  - intros x. rewrite elem_of_app, list_elem_of_singleton, <- Hseen.
    rewrite elem_of_union, elem_of_singleton. tauto.
  - apply Forall_app. split; [done|]. constructor; [|constructor].
    intros ->. simpl in Ht. done.
Qed.

Lemma visit_souszone_tidy st sz st' :
  tidy st -> visit_souszone st sz = Ok st' -> tidy st'.
Proof.
  intros Ht. unfold visit_souszone.
  destruct (get_or_empty sz "archimonstres") as [v|]; simpl; [|done].
  destruct (iter v) as [items|]; simpl; [|done].
  by apply (foldM_invariant tidy visit_archi visit_archi_tidy).
Qed.

Lemma visit_zone_tidy st z st' :
  tidy st -> visit_zone st z = Ok st' -> tidy st'.
Proof.
  intros Ht. unfold visit_zone.
  destruct (get_or_empty z "souszones") as [v|]; simpl; [|done].
  destruct (iter v) as [items|]; simpl; [|done].
  by apply (foldM_invariant tidy visit_souszone visit_souszone_tidy).
Qed.

Lemma gather_names_tidy (data : json) (names : list string) :
  gather_names data = Ok names ->
  NoDup names /\ Forall (fun s => s <> ""%string) names.
Proof.
  unfold gather_names.
  destruct (get_or_empty data "zones") as [v|]; simpl; [|done].
  destruct (iter v) as [items|]; simpl; [|done].
  destruct (foldM visit_zone (∅, []) items) as [st|] eqn:E; simpl; [|done].
  intros [= <-].
  assert (Ht : tidy st).
  { eapply (foldM_invariant tidy visit_zone visit_zone_tidy); [|exact E].
    split; [constructor|]. split; [|constructor].
    intros s. simpl. rewrite elem_of_empty, elem_of_nil. tauto. }
  destruct Ht as (Hnd & _ & Hne). done.
Qed.

(** X19: Whatever the decoded catalogue, the names gathered are pairwise distinct
    and none is empty. *)
Theorem gather_names_distinct_nonempty (data : json) (names : list string) :
  gather_names data = Ok names ->
  NoDup names /\ Forall (fun s => s <> ""%string) names.
Proof. apply gather_names_tidy. Qed.

Lemma gather_names_distinct_nonempty_witness :
  NoDup ["Fizz"; "Buzz"]%string.
Proof.
  apply (gather_names_distinct_nonempty
           (catalogue_json [mkZone "z" [mkSousZone "s" [mkArchi "Fizz" 1; mkArchi "" 2];
                                        mkSousZone "t" [mkArchi "Fizz" 3; mkArchi "Buzz" 4]]])).
  reflexivity.
Defined.

Lemma foldM_raises {A S : Type} (f : S -> A -> result S) (x : A) :
  (forall st, f st x = Raise BuiltinError) ->
  (forall st y e, f st y = Raise e -> e = BuiltinError) ->
  forall l st, In x l -> foldM f st l = Raise BuiltinError.
Proof.
  intros Hx He. induction l as [|y l IH]; intros st Hin; [done|]. simpl.
  destruct (f st y) as [st'|e] eqn:E; simpl.
  - destruct Hin as [->|Hin]; [by rewrite Hx in E | by apply IH].
  - by rewrite (He _ _ _ E).
Qed.

Lemma foldM_only_builtin {A S : Type} (f : S -> A -> result S) :
  (forall st y e, f st y = Raise e -> e = BuiltinError) ->
  forall l st e, foldM f st l = Raise e -> e = BuiltinError.
Proof.
  intros He. induction l as [|y l IH]; intros st e; simpl; [done|].
  destruct (f st y) as [st'|e'] eqn:E; simpl; [apply IH|].
  intros [= <-]. by eapply He.
Qed.

Lemma iter_only_builtin v e : iter v = Raise e -> e = BuiltinError.
Proof. destruct v; simpl; congruence. Qed.

Lemma get_or_empty_only_builtin v k e : get_or_empty v k = Raise e -> e = BuiltinError.
Proof. destruct v; simpl; congruence. Qed.

Lemma visit_archi_only_builtin st a e : visit_archi st a = Raise e -> e = BuiltinError.
Proof.
  unfold visit_archi. destruct a as [| | | | |m]; try congruence.
  destruct (negb _); [done|]. destruct (get m "nom"); try done.
  by destruct (bool_decide _).
Qed.

Lemma visit_souszone_only_builtin st sz e :
  visit_souszone st sz = Raise e -> e = BuiltinError.
Proof.
  unfold visit_souszone.
  destruct (get_or_empty sz "archimonstres") as [v|] eqn:E1; simpl;
    [|intros [= <-]; by eapply get_or_empty_only_builtin].
  destruct (iter v) as [items|] eqn:E2; simpl;
    [|intros [= <-]; by eapply iter_only_builtin].
  apply foldM_only_builtin, visit_archi_only_builtin.
Qed.

Lemma visit_zone_only_builtin st z e :
  visit_zone st z = Raise e -> e = BuiltinError.
Proof.
  unfold visit_zone.
  destruct (get_or_empty z "souszones") as [v|] eqn:E1; simpl;
    [|intros [= <-]; by eapply get_or_empty_only_builtin].
  destruct (iter v) as [items|] eqn:E2; simpl;
    [|intros [= <-]; by eapply iter_only_builtin].
  apply foldM_only_builtin, visit_souszone_only_builtin.
Qed.

(** X20: A zone entry that is not an object is not skipped: it makes the whole
    gathering raise, wherever it stands in the list. *)
Theorem gather_names_malformed_zone
    (d : gmap string json) (zones : list json) (z : json) :
  d !! "zones"%string = Some (JArr zones) -> In z zones ->
  (forall m, z <> JObj m) ->
  gather_names (JObj d) = Raise BuiltinError.
Proof.
  intros Hz Hin Hno. unfold gather_names. simpl. rewrite Hz. simpl.
  rewrite (foldM_raises visit_zone z); [done| |apply visit_zone_only_builtin|done].
  intros st. unfold visit_zone. destruct z; try done. by destruct (Hno m).
Qed.

Lemma gather_names_malformed_zone_witness :
  gather_names (JObj {[ "zones"%string :=
                          JArr [zone_json (mkZone "z" []); JStr "oops"] ]}) =
  Raise BuiltinError.
Proof.
  apply (gather_names_malformed_zone _ [zone_json (mkZone "z" []); JStr "oops"] (JStr "oops")).
  - reflexivity.
  - simpl. tauto.
  - discriminate.
Defined.

Lemma visit_archi_push st a : visit_archi st (archi_json a) = Ok (push st (nom a)).
Proof.
  unfold visit_archi, archi_json, push, nonempty.
  replace (get _ "nom") with (JStr (nom a)) by reflexivity. simpl.
  destruct (negb (nom a =? "")%string); [|done]. simpl.
  by destruct (bool_decide _).
Qed.

Lemma foldM_visit_archi l : forall st,
  foldM visit_archi st (map archi_json l) = Ok (fold_left push (map nom l) st).
Proof.
  induction l as [|a l IH]; intros st; [done|].
  cbn [map foldM]. rewrite visit_archi_push. cbn [rbind]. apply IH.
Qed.

Lemma visit_souszone_push st sz :
  visit_souszone st (souszone_json sz) = Ok (fold_left push (souszone_names sz) st).
Proof.
  unfold visit_souszone, souszone_json.
  replace (get_or_empty _ "archimonstres")
    with (Ok (A:=json) (JArr (map archi_json (archimonstres sz)))) by reflexivity.
  cbn [rbind iter]. apply foldM_visit_archi.
Qed.

Lemma foldM_visit_souszone l : forall st,
  foldM visit_souszone st (map souszone_json l) =
  Ok (fold_left push (flat_map souszone_names l) st).
Proof.
  induction l as [|sz l IH]; intros st; [done|].
  cbn [map foldM flat_map]. rewrite visit_souszone_push. cbn [rbind].
  rewrite fold_left_app. apply IH.
Qed.

Lemma visit_zone_push st z :
  visit_zone st (zone_json z) = Ok (fold_left push (zone_names z) st).
Proof.
  unfold visit_zone, zone_json.
  replace (get_or_empty _ "souszones")
    with (Ok (A:=json) (JArr (map souszone_json (souszones z)))) by reflexivity.
  cbn [rbind iter]. apply foldM_visit_souszone.
Qed.

Lemma foldM_visit_zone l : forall st,
  foldM visit_zone st (map zone_json l) =
  Ok (fold_left push (flat_map zone_names l) st).
Proof.
  induction l as [|z l IH]; intros st; [done|].
  cbn [map foldM flat_map]. rewrite visit_zone_push. cbn [rbind].
  rewrite fold_left_app. apply IH.
Qed.

Lemma filter_filter (P Q : string -> bool) (l : list string) :
  List.filter P (List.filter Q l) = List.filter (fun y => Q y && P y) l.
Proof.
  induction l as [|y l IH]; [done|]. simpl.
  destruct (Q y); simpl; [destruct (P y)|]; by rewrite IH.
Qed.

(** The accumulating loop and the list-level description agree. *)
Lemma fold_push l : forall seen names,
  (forall s, s ∈ seen <-> s ∈ names) ->
  snd (fold_left push l (seen, names)) =
  names ++ List.filter (fun y => bool_decide (y ∉ names))
                       (first_occurrences (List.filter nonempty l)).
Proof.
  induction l as [|x l IH]; intros seen names Hseen.
  - simpl. by rewrite app_nil_r.
  - cbn [fold_left List.filter]. unfold push at 2. cbn [fst snd].
    destruct (nonempty x) eqn:Hx; [|by apply IH].
    cbn [first_occurrences List.filter].
    destruct (bool_decide (x ∈ seen)) eqn:Hin.
    + apply bool_decide_eq_true in Hin. apply Hseen in Hin.
      rewrite (bool_decide_eq_false_2 (x ∉ names)) by tauto.
      rewrite (IH seen names Hseen). f_equal.
      rewrite filter_filter. apply filter_ext. intros y.
      destruct (String.eqb_spec y x) as [->|]; simpl; [|done].
      rewrite bool_decide_eq_false_2 by tauto. done.
    + apply bool_decide_eq_false in Hin.
      assert (Hnot : x ∉ names) by (intros Hc; by apply Hin, Hseen).
      rewrite (bool_decide_eq_true_2 (x ∉ names)) by done.
      rewrite (IH ({[ x ]} ∪ seen) (names ++ [x])).
      * rewrite <- app_assoc. simpl. do 2 f_equal.
        rewrite filter_filter. apply filter_ext. intros y.
        destruct (String.eqb_spec y x) as [->|Hne]; simpl.
        -- rewrite bool_decide_eq_false_2; [done|].
           rewrite elem_of_app, list_elem_of_singleton. tauto.
        -- apply bool_decide_ext. rewrite elem_of_app, list_elem_of_singleton. tauto.
      * intros s. rewrite elem_of_union, elem_of_singleton, elem_of_app,
          list_elem_of_singleton, Hseen. tauto.
Qed.

(** X21: On a catalogue of zones, sub-zones and archimonsters, the names gathered
    are the non-empty names in reading order, each kept at its first
    occurrence only; the other fields of the entries play no part. *)
Theorem gather_names_first_occurrences (zones : list zone) :
  gather_names (catalogue_json zones) =
  Ok (first_occurrences (List.filter nonempty (all_names zones))).
Proof.
  unfold gather_names, catalogue_json.
  replace (get_or_empty _ "zones")
    with (Ok (A:=json) (JArr (map zone_json zones))) by reflexivity.
  cbn [rbind iter]. rewrite foldM_visit_zone. cbn [rbind]. f_equal.
  change (flat_map zone_names zones) with (all_names zones).
  rewrite (fold_push _ ∅ []) by (intros s; rewrite elem_of_empty, elem_of_nil; tauto).
  simpl. rewrite <- (filter_true (first_occurrences _)) at 2.
  apply filter_ext. intros y. done.
Qed.

End CatalogueFacts.

(** ** The hotkey listener *)

Module HotkeyFacts.
Import Hotkeys.

Lemma f8_is_not_f10 (k : key) : is_f8 k = true -> is_f10 k = false.
Proof.
  unfold is_f8, is_f10, is_key. destruct k as [[]|vk]; simpl; try done.
  destruct (bool_decide_reflect (vk = Some 119)) as [->|]; [|done].
  intros _. by apply bool_decide_eq_false_2.
Qed.

Lemma toggle_keeps_anchor k g :
  search_bar_pos (toggle_on_f10 k g) = search_bar_pos g /\
  start_event (toggle_on_f10 k g) = start_event g /\
  scan_paused (toggle_on_f10 k g) = xorb (scan_paused g) (is_f10 k).
Proof.
  unfold toggle_on_f10, is_f10. destruct (is_key k F10 (Some 121)); simpl.
  - by destruct (scan_paused g).
  - by rewrite xorb_false_r.
Qed.

Lemma on_press_started k pointer g :
  start_event g = true ->
  search_bar_pos (on_press k pointer g) = search_bar_pos g /\
  start_event (on_press k pointer g) = true.
Proof.
  intros Hs. unfold on_press. rewrite Hs, andb_false_r.
  destruct (toggle_keeps_anchor k g) as (-> & -> & _). done.
Qed.

Lemma listen_started (events : list (key * option (Z * Z))) (g : globals) :
  start_event g = true ->
  search_bar_pos (listen events g) = search_bar_pos g /\
  start_event (listen events g) = true.
Proof.
  revert g. induction events as [|[k ptr] events IH]; intros g Hs; [done|].
  unfold listen in *. simpl.
  destruct (on_press_started k ptr g Hs) as [Hp Hs'].
  destruct (IH _ Hs') as [-> ->]. done.
Qed.

(** X22: Once the anchor has been captured no key press changes it: the scan loop
    reads the same position however late it looks. *)
Theorem anchor_written_once (events : list (key * option (Z * Z))) (g : globals) :
  start_event g = true ->
  search_bar_pos (listen events g) = search_bar_pos g /\
  start_event (listen events g) = true.
Proof. apply listen_started. Qed.

Lemma anchor_written_once_witness :
  search_bar_pos (listen [(Special F8, Some (5, 6)); (KeyCode (Some 119), Some (7, 8))]
                         (mkGlobals (Some (1, 2)) true false)) = Some (1, 2).
Proof.
  apply (anchor_written_once
           [(Special F8, Some (5, 6)); (KeyCode (Some 119), Some (7, 8))]
           (mkGlobals (Some (1, 2)) true false)).
  reflexivity.
Defined.

Lemma on_press_keeps_link k pointer g :
  (start_event g = true <-> is_Some (search_bar_pos g)) ->
  (start_event (on_press k pointer g) = true <->
   is_Some (search_bar_pos (on_press k pointer g))).
Proof.
  intros Hg. unfold on_press.
  destruct (is_key k F8 (Some 119) && negb (start_event g)).
  - destruct pointer as [p|]; [|done].
    destruct (toggle_keeps_anchor k (mkGlobals (Some p) true (scan_paused g)))
      as (-> & -> & _). simpl. split; eauto.
  - destruct (toggle_keeps_anchor k g) as (-> & -> & _). done.
Qed.

(** X23: Whatever keys were pressed since the start, the start event is set
    exactly when an anchor is recorded: [wait_for_start_hotkey] never reaches
    its [RuntimeError]. *)
Theorem started_means_anchor (events : list (key * option (Z * Z))) :
  start_event (listen events initial) = true ->
  exists p, wait_for_start_hotkey (listen events initial) = Ok p.
Proof.
  assert (Hlink : forall evs g,
            (start_event g = true <-> is_Some (search_bar_pos g)) ->
            (start_event (listen evs g) = true <->
             is_Some (search_bar_pos (listen evs g)))).
  { induction evs as [|[k ptr] evs IH]; intros g Hg; [done|].
    unfold listen in *. simpl. apply IH. by apply on_press_keeps_link. }
  intros Hs. apply Hlink in Hs.
  - destruct Hs as [p Hp]. exists p. unfold wait_for_start_hotkey. by rewrite Hp.
  - simpl. split; [done | by intros [? ?]].
Qed.

Lemma started_means_anchor_witness :
  exists p, wait_for_start_hotkey
              (listen [(Special F10, None); (KeyCode (Some 119), Some (30, 40))] initial)
            = Ok p.
Proof.
  apply (started_means_anchor [(Special F10, None); (KeyCode (Some 119), Some (30, 40))]).
  reflexivity.
Defined.

Lemma idle_presses_leave_unstarted pre g :
  start_event g = false -> search_bar_pos g = None ->
  Forall (fun ev => is_f8 (fst ev) = false \/ snd ev = None) pre ->
  start_event (listen pre g) = false /\ search_bar_pos (listen pre g) = None.
Proof.
  intros Hs Hp Hpre. revert g Hs Hp.
  induction Hpre as [|[k ptr] pre Hev _ IH]; intros g Hs Hp; [done|].
  unfold listen in *. simpl. apply IH.
  - unfold on_press. fold (is_f8 k). simpl in Hev.
    destruct (is_f8 k) eqn:E; simpl.
    + destruct Hev as [Hf | ->]; [done|]. by rewrite Hs.
    + by destruct (toggle_keeps_anchor k g) as (_ & -> & _).
  - unfold on_press. fold (is_f8 k). simpl in Hev.
    destruct (is_f8 k) eqn:E; simpl.
    + destruct Hev as [Hf | ->]; [done|]. by rewrite Hs.
    + by destruct (toggle_keeps_anchor k g) as (-> & _ & _).
Qed.

(** X24: The anchor is the pointer position at the first F8 press at which the
    pointer could be read; later presses, F8 included, do not move it. *)
Theorem anchor_is_first_f8
    (pre post : list (key * option (Z * Z))) (k : key) (p : Z * Z) :
  Forall (fun ev => is_f8 (fst ev) = false \/ snd ev = None) pre ->
  is_f8 k = true ->
  wait_for_start_hotkey (listen (pre ++ (k, Some p) :: post) initial) = Ok p.
Proof.
  intros Hpre Hk. unfold listen. rewrite fold_left_app. simpl.
  destruct (idle_presses_leave_unstarted pre initial eq_refl eq_refl Hpre) as [Hs Hp].
  unfold listen in Hs, Hp.
  set (g := fold_left _ pre initial) in *.
  assert (Hg : search_bar_pos (on_press k (Some p) g) = Some p /\
               start_event (on_press k (Some p) g) = true).
  { unfold on_press. fold (is_f8 k). rewrite Hk, Hs. simpl.
    by destruct (toggle_keeps_anchor k (mkGlobals (Some p) true (scan_paused g)))
         as (-> & -> & _). }
  destruct Hg as [Hpos Hst].
  destruct (listen_started post _ Hst) as [Hkeep _]. unfold listen in Hkeep.
  unfold wait_for_start_hotkey. by rewrite Hkeep, Hpos.
Qed.

Lemma anchor_is_first_f8_witness :
  wait_for_start_hotkey
    (listen ([(Special F10, Some (0, 0)); (Special F8, None)] ++
             (Special F8, Some (30, 40)) :: [(Special F8, Some (9, 9))]) initial)
  = Ok (30, 40).
Proof.
  apply (anchor_is_first_f8 [(Special F10, Some (0, 0)); (Special F8, None)]
           [(Special F8, Some (9, 9))] (Special F8) (30, 40)).
  - repeat constructor; simpl; tauto.
  - reflexivity.
Defined.

Lemma on_press_pause k pointer g :
  scan_paused (on_press k pointer g) = xorb (scan_paused g) (is_f10 k).
Proof.
  unfold on_press. fold (is_f8 k).
  destruct (is_f8 k) eqn:E8; simpl.
  - rewrite (f8_is_not_f10 k E8), xorb_false_r.
    destruct (negb (start_event g)).
    + destruct pointer as [p|]; [|done].
      destruct (toggle_keeps_anchor k (mkGlobals (Some p) true (scan_paused g)))
        as (_ & _ & ->). simpl. by rewrite (f8_is_not_f10 k E8), xorb_false_r.
    + destruct (toggle_keeps_anchor k g) as (_ & _ & ->).
      by rewrite (f8_is_not_f10 k E8), xorb_false_r.
  - by destruct (toggle_keeps_anchor k g) as (_ & _ & ->).
Qed.

(** X25: The scan is paused exactly when F10 was pressed an odd number of times,
    whatever else was pressed and whether or not the pointer could be
    read. *)
Theorem pause_follows_f10_parity (events : list (key * option (Z * Z))) (g : globals) :
  scan_paused (listen events g) =
  xorb (scan_paused g)
       (Nat.odd (length (List.filter (fun ev => is_f10 (fst ev)) events))).
Proof.
  revert g. induction events as [|[k ptr] events IH]; intros g.
  - simpl. by rewrite xorb_false_r.
  - unfold listen in *. cbn [fold_left List.filter fst snd].
    rewrite IH, on_press_pause.
    destruct (is_f10 k); cbn [length].
    + rewrite Nat.odd_succ, <- Nat.negb_odd.
      destruct (scan_paused g), (Nat.odd _); reflexivity.
    + by rewrite xorb_false_r.
Qed.

End HotkeyFacts.

(** ** The template cache *)

Module TemplateFacts.
Import Template.

(** X26: After [_ensure_tpl_loaded] returns with OpenCV present, the cache names
    the requested path and holds an image, never the template of another
    path; at most the requested file was read, and asking again for the same
    path reads nothing and leaves the cache as it is. *)
Theorem template_cache_is_current
    (image : Type) (imread : string -> option image)
    (template_path : string) (c c' : cache image) (reads : list string) :
  _ensure_tpl_loaded image imread true template_path c = Ok (c', reads) ->
  path image c' = Some template_path /\
  is_Some (img_gray image c') /\
  (reads = [] \/ reads = [template_path]) /\
  _ensure_tpl_loaded image imread true template_path c' = Ok (c', []).
Proof.
  unfold _ensure_tpl_loaded.
  destruct (bool_decide (path image c = Some template_path)) eqn:Ep; simpl.
  - destruct (img_gray image c) as [img|] eqn:Ei.
    + intros [= <- <-]. apply bool_decide_eq_true in Ep.
      rewrite Ep, Ei, bool_decide_eq_true_2 by done. simpl. eauto.
    + destruct (imread template_path) as [tpl|]; [|done].
      intros [= <- <-]. simpl. rewrite bool_decide_eq_true_2 by done. simpl. eauto.
  - destruct (imread template_path) as [tpl|]; [|done].
    intros [= <- <-]. simpl. rewrite bool_decide_eq_true_2 by done. simpl. eauto.
Qed.

Lemma template_cache_is_current_witness :
  path nat (mkCache nat (Some "archimonsterImg.png"%string) (Some 7%nat)) =
  Some "archimonsterImg.png"%string.
Proof.
  apply (template_cache_is_current nat (fun _ => Some 7%nat) "archimonsterImg.png"
           (mkCache nat (Some "old.png"%string) (Some 3%nat))
           (mkCache nat (Some "archimonsterImg.png"%string) (Some 7%nat))
           ["archimonsterImg.png"%string]).
  reflexivity.
Defined.

End TemplateFacts.

(** ** The whole run *)

Module EntryFacts.
Import Json Profile Store Payload Engine Catalogue Entry.
Import StoreFacts EngineFacts StoreExtra ProfileFacts ProfileExtra CatalogueFacts.

Lemma dict_set_fresh (d : list (string * Z)) (k : string) (v : Z) :
  k ∉ map fst d -> dict_set d k v = d ++ [(k, v)].
Proof.
  induction d as [|[k' v'] d IH]; intros Hk; [done|]. simpl.
  destruct (String.eqb_spec k' k) as [->|Hne].
  - exfalso. apply Hk. simpl. apply list_elem_of_here.
  - rewrite IH; [done|]. intros Hin. apply Hk. simpl. by apply list_elem_of_further.
Qed.

Lemma scan_name_stored W name s :
  carries_on W name -> scan_name W name s = (s, Ok (stored_count W name)).
Proof.
  unfold carries_on, scan_name, stored_count.
  destruct (look W name) as [c|e|e]; [done| |done]. by intros ->.
Qed.

(** Over distinct names that all carry on, the loop appends one entry per
    name, in order, holding what the screen gave for it. *)
Lemma scan_loop_counts W names profile todo :
  Forall (carries_on W) todo -> NoDup todo ->
  forall s, usable (st_store s) ->
  (forall n, n ∈ todo -> n ∉ map fst (st_counts s)) ->
  exists s', scan_loop W names profile todo s = (s', Ok tt) /\
             usable (st_store s') /\
             st_scanned s' = st_scanned s + Z.of_nat (length todo) /\
             st_counts s' = st_counts s ++ map (fun n => (n, stored_count W n)) todo.
Proof.
  induction 1 as [|name todo Hname Htodo IH]; intros Hnd s Hu Hfresh.
  - exists s. simpl. rewrite app_nil_r. repeat split; [done | lia].
  - apply NoDup_cons in Hnd as [Hnotin Hnd].
    cbn [scan_loop]. unfold bind at 1. rewrite (scan_name_stored W name s Hname).
    unfold bind at 1. unfold record at 1. cbn [st_scanned].
    rewrite dict_set_fresh by (apply Hfresh, list_elem_of_here).
    set (s1 := mkState _ _ _ _).
    assert (Hfresh1 : forall n, n ∈ todo -> n ∉ map fst (st_counts s1)).
    { intros n Hn. subst s1. simpl. rewrite map_app. simpl.
      rewrite elem_of_app, list_elem_of_singleton. intros [Hc| ->]; [|done].
      by apply (Hfresh n (list_elem_of_further _ _ _ Hn)). }
    unfold bind at 1.
    destruct ((st_scanned s + 1) mod SAVE_EVERY =? 0).
    + destruct (persist_ok W names profile s1 Hu)
        as (s2 & -> & Hc2 & Hsc2 & Hu2 & _ & _).
      destruct (IH Hnd s2 Hu2) as (s' & -> & Hu' & Hsc' & Hc').
      { intros n Hn. rewrite Hc2. by apply Hfresh1. }
      exists s'. split; [done|]. split; [done|].
      rewrite Hsc', Hc', Hsc2, Hc2. subst s1. simpl.
      split; [lia | by rewrite <- app_assoc].
    + unfold ret at 1.
      destruct (IH Hnd s1 Hu Hfresh1) as (s' & -> & Hu' & Hsc' & Hc').
      exists s'. split; [done|]. split; [done|].
      rewrite Hsc', Hc'. subst s1. simpl.
      split; [lia | by rewrite <- app_assoc].
Qed.

(** X27: A run over a decoded catalogue in which no turn leaves the loop records
    one count per gathered name, in catalogue order: what the matcher
    returned, or zero where it raised; the scanned total equals the number of
    names, and the result read back under the resolved profile is the payload
    of exactly these counts. *)
Theorem run_records_every_name
    (W : world) (profile env_ARCHI_PROFILE : option string)
    (cfg results : file) (data : json) (names : list string) :
  usable results -> gather_names data = Ok names ->
  Forall (carries_on W) names ->
  exists s stamp,
    run W profile env_ARCHI_PROFILE cfg results true (Content data) = (s, Ok tt) /\
    st_counts s = map (fun n => (n, stored_count W n)) names /\
    st_scanned s = Z.of_nat (length names) /\
    read_profile (st_store s)
                 (_resolve_profile profile env_ARCHI_PROFILE cfg results) =
      Some (JObj (to_json (make_payload stamp (cv2 W) names
                             (map (fun n => (n, stored_count W n)) names)
                             (Z.of_nat (length names))))).
Proof.
  intros Hu Hg Hnames. unfold run. simpl. rewrite Hg. unfold main.
  set (p := _resolve_profile _ _ _ _).
  destruct (gather_names_tidy data names Hg) as [Hnd _].
  destruct (scan_loop_counts W names p names Hnames Hnd (mkState [] 0 results []) Hu)
    as (s1 & Hloop & Hu1 & Hsc & Hc); [intros n _; simpl; apply not_elem_of_nil|].
  destruct (persist_ok W names p s1 Hu1)
    as (s2 & Hfin & Hc2 & Hsc2 & _ & _ & Hread).
  unfold finally_stop_listener, bind. rewrite Hloop, Hfin.
  eexists _, _. split; [reflexivity|]. simpl in *.
  rewrite Hc2, Hc, Hsc2, Hsc. split; [done|]. split; [lia|].
  rewrite Hread, Hc, Hsc. reflexivity.
Qed.

Lemma run_records_every_name_witness :
  let W := mkWorld (fun n => if String.eqb n "Buzz" then MatchRaised FailSafeException
                             else Counted 2)
                   (fun _ => "2024-01-01T00:00:00"%string) true in
  exists s stamp,
    run W None None Missing Missing true
        (Content (catalogue_json
           [mkZone "z" [mkSousZone "s" [mkArchi "Fizz" 1; mkArchi "Fizz" 1;
                                        mkArchi "Buzz" 2]]])) = (s, Ok tt) /\
    st_counts s = [("Fizz"%string, 2); ("Buzz"%string, 0)] /\
    read_profile (st_store s) "default" =
      Some (JObj (to_json (make_payload stamp true ["Fizz"; "Buzz"]%string
                             [("Fizz"%string, 2); ("Buzz"%string, 0)] 2))).
Proof.
  intros W.
  destruct (run_records_every_name W None None Missing Missing
              (catalogue_json
                 [mkZone "z" [mkSousZone "s" [mkArchi "Fizz" 1; mkArchi "Fizz" 1;
                                              mkArchi "Buzz" 2]]])
              ["Fizz"; "Buzz"]%string)
    as (s & stamp & Hrun & Hcounts & _ & Hread).
  - apply usable_Missing.
  - reflexivity.
  - repeat constructor.
  - exists s, stamp. split; [exact Hrun|]. split; [exact Hcounts | exact Hread].
Defined.

(** Whatever happens during the loop, other profiles are left alone. *)
Lemma scan_loop_frame W names profile todo :
  forall s, usable (st_store s) ->
  exists s' r, scan_loop W names profile todo s = (s', r) /\
               usable (st_store s') /\
               forall q, q <> profile ->
                 read_profile (st_store s') q = read_profile (st_store s) q.
Proof.
  induction todo as [|name todo IH]; intros s Hu.
  - exists s, (Ok tt). done.
  - cbn [scan_loop]. unfold bind at 1.
    assert (Hsn : scan_name W name s = (s, Ok (stored_count W name)) \/
                  exists e, scan_name W name s = (s, Raise e)).
    { unfold scan_name, stored_count. destruct (look W name) as [c|e|e]; eauto.
      destruct (is_Exception e); eauto. }
    destruct Hsn as [-> | [e ->]]; [|by exists s, (Raise e)].
    unfold bind at 1. unfold record at 1. cbn [st_scanned].
    set (s1 := mkState _ _ _ _). unfold bind at 1.
    destruct ((st_scanned s + 1) mod SAVE_EVERY =? 0).
    + unfold persist.
      destruct (save_frame (st_store s1) profile
                  (to_json (make_payload (utcnow W (nb_saves (st_trace s1))) (cv2 W)
                                         names (st_counts s1) (st_scanned s1)))
                  Hu (to_json_plain _))
        as (f' & -> & Hu' & _ & _ & Hq).
      set (s2 := mkState _ _ f' _).
      destruct (IH s2 Hu') as (s' & r & -> & Hu'' & Hq').
      exists s', r. split; [done|]. split; [done|].
      intros q Hne. rewrite (Hq' q Hne). subst s2. simpl. by apply Hq.
    + unfold ret at 1. destruct (IH s1 Hu) as (s' & r & -> & Hu'' & Hq').
      exists s', r. done.
Qed.

(** X28: A run, completed or not, changes no profile other than the one it
    resolved: every other profile of the results file reads afterwards as it
    did before. *)
Theorem run_touches_only_its_profile
    (W : world) (profile env_ARCHI_PROFILE : option string)
    (cfg results : file) (names : list string) (q : string) :
  usable results ->
  q <> _resolve_profile profile env_ARCHI_PROFILE cfg results ->
  read_profile (st_store (fst (main W profile env_ARCHI_PROFILE cfg results names))) q =
  read_profile results q.
Proof.
  intros Hu Hq. unfold main.
  set (p := _resolve_profile _ _ _ _) in *.
  destruct (scan_loop_frame W names p names (mkState [] 0 results []) Hu)
    as (s1 & r & Hloop & Hu1 & Hq1).
  unfold finally_stop_listener, bind. rewrite Hloop.
  destruct r as [[]|e]; simpl; [|by apply Hq1].
  unfold persist.
  destruct (save_frame (st_store s1) p
              (to_json (make_payload (utcnow W (nb_saves (st_trace s1))) (cv2 W)
                                     names (st_counts s1) (st_scanned s1)))
              Hu1 (to_json_plain _))
    as (f' & -> & _ & _ & _ & Hq2).
  simpl. rewrite (Hq2 q Hq). by apply Hq1.
Qed.

Lemma run_touches_only_its_profile_witness :
  let W := mkWorld (fun _ => Counted 1) (fun _ => "2024-01-01T00:00:00"%string) true in
  let results := Content (JObj {[ "profiles"%string :=
                                    JObj {[ "mikhal"%string := JObj {[ "scanned"%string := JNum 7 ]} ]};
                                  "activeProfile"%string := JStr "mikhal" ]}) in
  read_profile (st_store (fst (main W (Some "kourial"%string) None Missing results
                                    ["Fizz"; "Buzz"]%string))) "mikhal" =
  Some (JObj {[ "scanned"%string := JNum 7 ]}).
Proof.
  intros W results.
  rewrite (run_touches_only_its_profile W (Some "kourial"%string) None Missing results
             ["Fizz"; "Buzz"]%string "mikhal").
  - reflexivity.
  - eexists _, _. split; reflexivity.
  - discriminate.
Defined.

Lemma main_interrupted W profile env cfg results counted name rest e :
  usable results -> Forall (carries_on W) counted -> breaks_off W name e ->
  exists s, main W profile env cfg results (counted ++ name :: rest) = (s, Raise e).
Proof.
  intros Hu Hcounted Hbreak. unfold main.
  set (p := _resolve_profile _ _ _ _).
  set (names := counted ++ name :: rest).
  destruct (scan_loop_carries_on W names p counted Hcounted (mkState [] 0 results []) Hu)
    as (s1 & Hloop & _).
  unfold finally_stop_listener, bind. unfold names at 2.
  rewrite scan_loop_app. unfold bind at 1. rewrite Hloop.
  cbn [scan_loop]. unfold bind at 1.
  rewrite (scan_name_breaks_off W name e s1 Hbreak). eauto.
Qed.

(** X29: The process ends with status 0 after an interruption from the keyboard,
    which [__main__] catches, and with status 1 after any other exception
    that leaves the loop, the pointer fail-safe included. *)
Theorem exit_status_after_abort
    (W : world) (env_ARCHI_PROFILE : option string) (cfg results : file)
    (counted : list string) (name : string) (rest : list string) (e : exn) :
  usable results -> Forall (carries_on W) counted -> breaks_off W name e ->
  snd (script W env_ARCHI_PROFILE cfg results (counted ++ name :: rest)) =
  match e with KeyboardInterrupt => 0 | _ => 1 end.
Proof.
  intros Hu Hcounted Hbreak. unfold script.
  destruct (main_interrupted W None env_ARCHI_PROFILE cfg results counted name rest e
              Hu Hcounted Hbreak) as (s & ->).
  by destruct e.
Qed.

Lemma exit_status_after_abort_witness :
  let W := mkWorld (fun n => if String.eqb n "b" then Interrupted FailSafeException
                             else Counted 1)
                   (fun _ => "2024-01-01T00:00:00"%string) true in
  snd (script W None Missing Missing (["a"%string] ++ "b"%string :: ["c"%string])) = 1.
Proof.
  intros W.
  apply (exit_status_after_abort W None Missing Missing ["a"%string] "b" ["c"%string]
           FailSafeException).
  - apply usable_Missing.
  - repeat constructor.
  - reflexivity.
Defined.

(** X30: The profile of a write sticks: a later run given no explicit profile, no
    environment value and no profile in its configuration file resolves to
    the profile last written, provided that one was a sanitised id. *)
Theorem written_profile_is_resolved_next
    (f f' cfg : file) (p : string) (v : gmap string json) :
  usable f -> plain v -> sanitized p ->
  candidate cfg_keys cfg = None ->
  save_results_profile f p v = Ok f' ->
  _resolve_profile None None cfg f' = p.
Proof.
  intros (data & profiles & Hl & Hp) [Hv1 Hv2] Hsan Hcfg Hsave.
  rewrite (save_usable _ data profiles p v Hl Hp) in Hsave. injection Hsave as <-.
  unfold _resolve_profile. cbn [of_opt truthy _safe_profile negb]. rewrite Hcfg.
  unfold candidate. rewrite py_or_obj. unfold results_keys, get.
  rewrite (written_active data profiles p v Hv2). simpl.
  by rewrite _safe_profile_str, (sanitized_fixed p Hsan).
Qed.

Lemma written_profile_is_resolved_next_witness :
  exists f',
    save_results_profile Missing "mikhal" {[ "scanned"%string := JNum 3 ]} = Ok f' /\
    _resolve_profile None None Unreadable f' = "mikhal"%string.
Proof.
  eexists. split; [reflexivity|].
  apply (written_profile_is_resolved_next Missing _ Unreadable "mikhal"
           {[ "scanned"%string := JNum 3 ]}).
  - apply usable_Missing.
  - split; reflexivity.
  - split; [done | simpl; repeat constructor].
  - reflexivity.
  - reflexivity.
Defined.

End EntryFacts.
